(** * Dobot IoT control server: the request handlers of [Server/app.py]

    A shallow embedding of the Flask application in [Server/app.py] and the
    properties of its HTTP surface.

    - Python values (the result of [request.get_json()] and the argument of
      [jsonify]) are the inductive [value].
    - The three module-level connection objects are the record [Handles].
    - The robot controller behind the vendor library is an oracle
      [robot : Log -> Call -> Outcome]; a handler runs in the monad [M], which
      threads the log of remote calls and carries Python exceptions.
    - A handler either returns a [Response] or lets an exception escape to the
      framework ([Raise]).

    Strings are byte strings ([Stdlib.Strings.String]); the builtins below are
    exact on ASCII text, which is what the controller's protocol carries. *)

From Stdlib Require Import ZArith List String Ascii Bool Lia DecimalString.
From Stdlib Require Import PrimFloat SpecFloat FloatOps.
Import ListNotations.

Set Warnings "-register-all".
Local Open Scope string_scope.
Local Open Scope Z_scope.

(* ===================================================================== *)
(** ** Python values *)
(* ===================================================================== *)

(** What [json.loads] produces and [jsonify] consumes.  A [dict] keeps its
    insertion order, so it is an association list; lookup takes the first
    binding of a key. *)
Inductive value : Type :=
| VNone
| VBool (b : bool)
| VInt (z : Z)
| VFloat (f : float)
| VStr (s : string)
| VList (l : list value)
| VDict (d : list (string * value)).

Inductive exc_class : Type :=
| IndexError
| ValueError
| TypeError
| KeyError
| AttributeError
| HTTPException  (* raised by the framework, in [request.get_json()] *)
| RemoteError.   (* whatever [Exception] the vendor library raises *)

(** A raised exception: its class and [str(e)]. *)
Record exn : Type := mkExn { exn_class : exc_class; exn_str : string }.

Inductive result (A : Type) : Type :=
| Ok (a : A)
| Raise (e : exn).
Arguments Ok {A} a.
Arguments Raise {A} e.

(* ===================================================================== *)
(** ** String builtins *)
(* ===================================================================== *)

Module Str.

(** [needle in hay] for two [str]. *)
Fixpoint contains (needle hay : string) : bool :=
  String.prefix needle hay ||
  match hay with
  | EmptyString => false
  | String _ hay' => contains needle hay'
  end.

(** [s.replace(old, new)] for a non-empty [old]: left to right, without
    overlap.  [skip] counts the characters of a match still to be dropped. *)
Fixpoint replace_from (old new : string) (skip : nat) (s : string) : string :=
  match s with
  | EmptyString => EmptyString
  | String c s' =>
      match skip with
      | S k => replace_from old new k s'
      | O =>
          if String.prefix old s
          then new ++ replace_from old new (Nat.pred (String.length old)) s'
          else String c (replace_from old new O s')
      end
  end.

Definition replace (old new s : string) : string := replace_from old new O s.

(** [s.split(sep)] for a non-empty [sep]: always at least one field.
    [cur] is the field read so far. *)
Fixpoint split_from (sep : string) (skip : nat) (cur : string) (s : string)
  : list string :=
  match s with
  | EmptyString => [cur]
  | String c s' =>
      match skip with
      | S k => split_from sep k cur s'
      | O =>
          if String.prefix sep s
          then cur :: split_from sep (Nat.pred (String.length sep))
                                 EmptyString s'
          else split_from sep O (cur ++ String c EmptyString) s'
      end
  end.

Definition split (sep s : string) : list string :=
  split_from sep O EmptyString s.

Definition rev (s : string) : string :=
  string_of_list_ascii (List.rev (list_ascii_of_string s)).

(** The ASCII whitespace that [float] drops around its argument: tab, line
    feed, vertical tab, form feed, carriage return and space. *)
Definition is_space (c : ascii) : bool :=
  let n := nat_of_ascii c in
  ((9 <=? n)%nat && (n <=? 13)%nat) || (n =? 32)%nat.

Fixpoint lstrip (s : string) : string :=
  match s with
  | String c s' => if is_space c then lstrip s' else s
  | EmptyString => EmptyString
  end.

Definition strip (s : string) : string := rev (lstrip (rev (lstrip s))).

Definition lower_char (c : ascii) : ascii :=
  let n := nat_of_ascii c in
  if ((65 <=? n)%nat && (n <=? 90)%nat) then ascii_of_nat (n + 32) else c.

Fixpoint lower (s : string) : string :=
  match s with
  | EmptyString => EmptyString
  | String c s' => String (lower_char c) (lower s')
  end.

Definition hex_digit (n : nat) : ascii :=
  if (n <? 10)%nat then ascii_of_nat (48 + n) else ascii_of_nat (87 + n).

(** The double quote character. *)
Definition dquote : ascii := ascii_of_nat 34.

(** One character of [repr(s)] inside the quote [q]. *)
Definition repr_char (q c : ascii) : string :=
  let n := nat_of_ascii c in
  if Ascii.eqb c "\" then "\\"
  else if Ascii.eqb c q then String "\" (String q EmptyString)
  else if (n =? 9)%nat then "\t"
  else if (n =? 10)%nat then "\n"
  else if (n =? 13)%nat then "\r"
  else if ((n <? 32)%nat || (n =? 127)%nat)
       then String "\" (String "x" (String (hex_digit (n / 16))
              (String (hex_digit (n mod 16)) EmptyString)))
  else String c EmptyString.

Fixpoint repr_body (q : ascii) (s : string) : string :=
  match s with
  | EmptyString => EmptyString
  | String c s' => repr_char q c ++ repr_body q s'
  end.

(** [repr(s)]: single quotes, unless the text has a single quote and no
    double quote.  Exact on ASCII text; bytes above 127 are copied, where
    Python escapes the characters outside ASCII that do not print. *)
Definition repr (s : string) : string :=
  let q := if contains "'" s && negb (contains (String dquote EmptyString) s)
           then dquote else "'"%char in
  String q (repr_body q s ++ String q EmptyString).

End Str.

(* ===================================================================== *)
(** ** [float(s)] *)
(* ===================================================================== *)

Module PyFloat.

Definition is_digit (c : ascii) : bool :=
  let n := nat_of_ascii c in (48 <=? n)%nat && (n <=? 57)%nat.

Definition digit_val (c : ascii) : Z := Z.of_nat (nat_of_ascii c) - 48.

(** The tail of a [digitpart]: digits, each optionally preceded by one
    underscore.  Returns the number read, the count of digits and the rest. *)
Fixpoint digits_tail (s : string) (acc cnt : Z) : Z * Z * string :=
  match s with
  | String c s' =>
      if is_digit c then digits_tail s' (10 * acc + digit_val c) (cnt + 1)
      else if Ascii.eqb c "_" then
        match s' with
        | String c' s'' =>
            if is_digit c'
            then digits_tail s'' (10 * acc + digit_val c') (cnt + 1)
            else (acc, cnt, s)
        | EmptyString => (acc, cnt, s)
        end
      else (acc, cnt, s)
  | EmptyString => (acc, cnt, s)
  end.

(** [digitpart ::= digit (["_"] digit)*], continuing the number [acc]. *)
Definition digitpart (s : string) (acc : Z) : option (Z * Z * string) :=
  match s with
  | String c s' =>
      if is_digit c then Some (digits_tail s' (10 * acc + digit_val c) 1)
      else None
  | EmptyString => None
  end.

Definition sign (s : string) : bool * string :=
  match s with
  | String "-" s' => (true, s')
  | String "+" s' => (false, s')
  | _ => (false, s)
  end.

(** [number ::= [digitpart] "." digitpart | digitpart ["."]]: the digits as
    one integer and the count of those after the point. *)
Definition number (s : string) : option (Z * Z * string) :=
  match digitpart s 0 with
  | Some (m, _, String "." r) =>
      match digitpart r m with
      | Some (m', k, r') => Some (m', k, r')
      | None => Some (m, 0, r)
      end
  | Some (m, _, r) => Some (m, 0, r)
  | None =>
      match s with
      | String "." r => digitpart r 0
      | _ => None
      end
  end.

(** [exponent ::= ("e" | "E") [sign] digitpart], optional. *)
Definition exponent (s : string) : option (Z * string) :=
  match s with
  | String c r =>
      if Ascii.eqb c "e" || Ascii.eqb c "E" then
        let '(neg, r1) := sign r in
        match digitpart r1 0 with
        | Some (e, _, r2) => Some (if neg then - e else e, r2)
        | None => None
        end
      else Some (0, s)
  | EmptyString => Some (0, s)
  end.

(** The binary64 nearest to [n / d] (ties to even), for positive [n], [d]. *)
Definition round_ratio (sx : bool) (n d : Z) : spec_float :=
  let '(q, e, l) := SFdiv_core_binary prec emax n 0 d 0 in
  binary_round_aux prec emax sx q e l.

(** The binary64 nearest to [(-1)^sx * m * 10^e]. *)
Definition of_decimal (sx : bool) (m e : Z) : float :=
  SF2Prim (if m =? 0 then S754_zero sx
           else if 0 <=? e then round_ratio sx (m * 10 ^ e) 1
           else round_ratio sx m (10 ^ (- e))).

(** [float(s)] on a [str]; [None] is the [ValueError].  Exact on ASCII
    text: outside ASCII Python also takes the other decimal digits and
    blanks of Unicode, so a statement that rests on a rejection asks for
    ASCII text ([ascii_text], below). *)
Definition parse (s : string) : option float :=
  let '(neg, r) := sign (Str.strip s) in
  let w := Str.lower r in
  if String.eqb w "inf" || String.eqb w "infinity"
  then Some (if neg then neg_infinity else infinity)
  else if String.eqb w "nan" then Some nan
  else
    match number r with
    | Some (m, k, r1) =>
        match exponent r1 with
        | Some (e, EmptyString) => Some (of_decimal neg m (e - k))
        | _ => None
        end
    | None => None
    end.

Definition float (s : string) : result PrimFloat.float :=
  match parse s with
  | Some f => Ok f
  | None =>
      Raise (mkExn ValueError
               ("could not convert string to float: " ++ Str.repr s))
  end.

End PyFloat.

(* ===================================================================== *)
(** ** [repr] and [str] *)
(* ===================================================================== *)

Module PyRepr.

Definition int_str (z : Z) : string := NilZero.string_of_int (Z.to_int z).

Fixpoint zeros (n : nat) : string :=
  match n with
  | O => EmptyString
  | S n' => String "0" (zeros n')
  end.

(** [10^p <= num / den]. *)
Definition pow10_le (p num den : Z) : bool :=
  if 0 <=? p then 10 ^ p * den <=? num else den <=? num * 10 ^ (- p).

(** [floor (log10 (num / den))], from the bit lengths and one correction. *)
Definition decimal_exponent (num den : Z) : Z :=
  let est := ((Z.log2 num - Z.log2 den) * 30103) / 100000 in
  if negb (pow10_le est num den) then est - 1
  else if pow10_le (est + 1) num den then est + 1
  else est.

(** [num / den / 10^k] as a fraction. *)
Definition scaled (num den k : Z) : Z * Z :=
  if 0 <=? k then (num, den * 10 ^ k) else (num * 10 ^ (- k), den).

(** The shortest decimal [c * 10^k] that [float] reads back as [f], the
    nearest to [f = num / den] among those of that length; [n] is the number
    of digits tried, [p] the decimal exponent of [f]. *)
Fixpoint shortest (fuel : nat) (n : Z) (f : float) (num den p : Z) : Z * Z :=
  let k := p - n + 1 in
  let '(a, b) := scaled num den k in
  let lo := a / b in
  let hi := lo + 1 in
  let r := a mod b in
  let near := if 2 * r <? b then lo
              else if b <? 2 * r then hi
              else if Z.even lo then lo else hi in
  match fuel with
  | O => (near, k)
  | S fuel' =>
      let ok_lo := PrimFloat.eqb (PyFloat.of_decimal false lo k) f in
      let ok_hi := PrimFloat.eqb (PyFloat.of_decimal false hi k) f in
      if ok_lo && ok_hi then (near, k)
      else if ok_lo then (lo, k)
      else if ok_hi then (hi, k)
      else shortest fuel' (n + 1) f num den p
  end.

Fixpoint strip_zeros (fuel : nat) (c k : Z) : Z * Z :=
  match fuel with
  | O => (c, k)
  | S fuel' =>
      if (c mod 10 =? 0) && negb (c =? 0)
      then strip_zeros fuel' (c / 10) (k + 1)
      else (c, k)
  end.

(** The layout of [repr]: digits [ds] with the decimal point after the
    first [decpt] of them; exponent form outside [-4 < decpt <= 16]. *)
Definition layout (ds : string) (decpt : Z) : string :=
  let n := Z.of_nat (String.length ds) in
  if (decpt <=? -4) || (16 <? decpt) then
    let e := decpt - 1 in
    let es := int_str (Z.abs e) in
    let mant := match ds with
                | String d EmptyString => ds
                | String d rest => String d (String "." rest)
                | EmptyString => ds
                end in
    mant ++ (if e <? 0 then "e-" else "e+")
         ++ (if Z.abs e <? 10 then "0" else "") ++ es
  else if decpt <=? 0 then "0." ++ zeros (Z.to_nat (- decpt)) ++ ds
  else if n <=? decpt then ds ++ zeros (Z.to_nat (decpt - n)) ++ ".0"
  else substring 0 (Z.to_nat decpt) ds ++ "."
       ++ substring (Z.to_nat decpt) (Z.to_nat (n - decpt)) ds.

(** [repr(f)] for a [float]. *)
Definition float_repr (f : float) : string :=
  match Prim2SF f with
  | S754_nan => "nan"
  | S754_infinity s => if s then "-inf" else "inf"
  | S754_zero s => if s then "-0.0" else "0.0"
  | S754_finite s m e =>
      let num := if 0 <=? e then Zpos m * 2 ^ e else Zpos m in
      let den := if 0 <=? e then 1 else 2 ^ (- e) in
      let '(c, k) := shortest 16 1 (abs f) num den (decimal_exponent num den) in
      let '(c', k') := strip_zeros 17 c k in
      let ds := int_str c' in
      (if s then "-" else "")
        ++ layout ds (Z.of_nat (String.length ds) + k')
  end.

End PyRepr.

(* ===================================================================== *)
(** ** Operators on values *)
(* ===================================================================== *)

Module Py.

Definition type_name (v : value) : string :=
  match v with
  | VNone => "NoneType"
  | VBool _ => "bool"
  | VInt _ => "int"
  | VFloat _ => "float"
  | VStr _ => "str"
  | VList _ => "list"
  | VDict _ => "dict"
  end.

(** [bool(v)], the test behind [not v]. *)
Definition truthy (v : value) : bool :=
  match v with
  | VNone => false
  | VBool b => b
  | VInt z => negb (z =? 0)
  | VFloat f => negb (PrimFloat.eqb f zero)
  | VStr s => negb (String.eqb s EmptyString)
  | VList l => match l with [] => false | _ :: _ => true end
  | VDict d => match d with [] => false | _ :: _ => true end
  end.

Fixpoint dict_get (d : list (string * value)) (k : string) : option value :=
  match d with
  | [] => None
  | (k', v) :: d' => if String.eqb k' k then Some v else dict_get d' k
  end.

(** [d[k] = v]: an existing key keeps its place. *)
Fixpoint dict_set (d : list (string * value)) (k : string) (v : value)
  : list (string * value) :=
  match d with
  | [] => [(k, v)]
  | (k', v') :: d' =>
      if String.eqb k' k then (k', v) :: d' else (k', v') :: dict_set d' k v
  end.

(** [k in v] for a [str] [k]. *)
Definition contains (k : string) (v : value) : result bool :=
  match v with
  | VDict d => Ok (match dict_get d k with Some _ => true | None => false end)
  | VList l =>
      Ok (existsb (fun e => match e with
                            | VStr s => String.eqb s k
                            | _ => false
                            end) l)
  | VStr s => Ok (Str.contains k s)
  | _ => Raise (mkExn TypeError
                  ("argument of type '" ++ type_name v ++ "' is not iterable"))
  end.

(** [v[k]] for a [str] [k]. *)
Definition getitem (v : value) (k : string) : result value :=
  match v with
  | VDict d =>
      match dict_get d k with
      | Some x => Ok x
      | None => Raise (mkExn KeyError (Str.repr k))
      end
  | VList _ =>
      Raise (mkExn TypeError "list indices must be integers or slices, not str")
  | VStr _ =>
      Raise (mkExn TypeError "string indices must be integers, not 'str'")
  | _ => Raise (mkExn TypeError
                  ("'" ++ type_name v ++ "' object is not subscriptable"))
  end.

(** [l[i]] on a list. *)
Definition index {A : Type} (l : list A) (i : nat) : result A :=
  match nth_error l i with
  | Some x => Ok x
  | None => Raise (mkExn IndexError "list index out of range")
  end.

(** [[f(c) for c in l]]: left to right, the first exception ends it. *)
Fixpoint comprehension {A B : Type} (f : A -> result B) (l : list A)
  : result (list B) :=
  match l with
  | [] => Ok []
  | c :: l' =>
      match f c with
      | Raise e => Raise e
      | Ok b =>
          match comprehension f l' with
          | Raise e => Raise e
          | Ok bs => Ok (b :: bs)
          end
      end
  end.

(** [all(k in data for k in ks)]: stops at the first [False]. *)
Fixpoint all_in (ks : list string) (data : value) : result bool :=
  match ks with
  | [] => Ok true
  | k :: ks' =>
      match contains k data with
      | Raise e => Raise e
      | Ok false => Ok false
      | Ok true => all_in ks' data
      end
  end.

(** A float against an int, exactly; [None] for [nan]. *)
Definition float_cmp_int (f : float) (a : Z) : option comparison :=
  match Prim2SF f with
  | S754_nan => None
  | S754_infinity s => Some (if s then Lt else Gt)
  | S754_zero _ => Some (0 ?= a)
  | S754_finite s m e =>
      let n := if s then Zneg m else Zpos m in
      Some (if 0 <=? e then n * 2 ^ e ?= a else n ?= a * 2 ^ (- e))
  end.

Definition unorderable (l r : string) : exn :=
  mkExn TypeError
    ("'<=' not supported between instances of '" ++ l ++ "' and '" ++ r ++ "'").

(** [a <= v] for an int literal [a]. *)
Definition int_le (a : Z) (v : value) : result bool :=
  match v with
  | VInt z => Ok (a <=? z)
  | VBool b => Ok (a <=? Z.b2z b)
  | VFloat f =>
      Ok (match float_cmp_int f a with
          | Some Gt | Some Eq => true
          | _ => false
          end)
  | _ => Raise (unorderable "int" (type_name v))
  end.

(** [v <= b] for an int literal [b]. *)
Definition le_int (v : value) (b : Z) : result bool :=
  match v with
  | VInt z => Ok (z <=? b)
  | VBool c => Ok (Z.b2z c <=? b)
  | VFloat f =>
      Ok (match float_cmp_int f b with
          | Some Lt | Some Eq => true
          | _ => false
          end)
  | _ => Raise (unorderable (type_name v) "int")
  end.

(** [a <= v <= b]: the second comparison only when the first holds. *)
Definition between (a : Z) (v : value) (b : Z) : result bool :=
  match int_le a v with
  | Raise e => Raise e
  | Ok false => Ok false
  | Ok true => le_int v b
  end.

Definition join (sep : string) (l : list string) : string :=
  String.concat sep l.

(** [repr(v)]. *)
Fixpoint repr (v : value) : string :=
  match v with
  | VNone => "None"
  | VBool b => if b then "True" else "False"
  | VInt z => PyRepr.int_str z
  | VFloat f => PyRepr.float_repr f
  | VStr s => Str.repr s
  | VList l => "[" ++ join ", " (List.map repr l) ++ "]"
  | VDict d =>
      "{" ++ join ", "
               (List.map
                  (fun kv => Str.repr (fst kv) ++ ": " ++ repr (snd kv)) d)
          ++ "}"
  end.

(** [str(v)], what an f-string field shows. *)
Definition str (v : value) : string :=
  match v with
  | VStr s => s
  | _ => repr v
  end.

End Py.

(* ===================================================================== *)
(** ** The robot controller and the handler monad *)
(* ===================================================================== *)

(** A method of the vendor library called on one of the three handles. *)
Inductive Call : Type :=
| GetErrorID
| EnableRobot
| DisableRobot
| ResetRobot
| GetPose
| MovJ (x y z r : value)
| MovL (x y z r : value)
| Sync
| SpeedFactor (ratio : value).

(** How a remote call ends: the reply string, or a raised fault with its
    [str(e)]. *)
Inductive Outcome : Type :=
| Reply (s : string)
| Fault (msg : string).

Definition Log : Type := list (Call * Outcome).

Definition method_name (c : Call) : string :=
  match c with
  | GetErrorID => "GetErrorID"
  | EnableRobot => "EnableRobot"
  | DisableRobot => "DisableRobot"
  | ResetRobot => "ResetRobot"
  | GetPose => "GetPose"
  | MovJ _ _ _ _ => "MovJ"
  | MovL _ _ _ _ => "MovL"
  | Sync => "Sync"
  | SpeedFactor _ => "SpeedFactor"
  end.

(** A connection object of the vendor library. *)
Record Conn : Type := mkConn { conn_ip : string; conn_port : Z }.

(** The module-level names [dashboard], [move] and [feed]; [None] is Python's
    [None]. *)
Record Handles : Type := mkHandles {
  dashboard : option Conn;
  move : option Conn;
  feed : option Conn
}.

Definition ROBOT_IP : string := "192.168.1.6".

(** Module initialisation: the three constructors run in one [try]; when one
    raises, all three names are set to [None].  [connect ip port] tells whether
    the constructor for that port returns. *)
Definition startup (connect : string -> Z -> bool) : Handles :=
  if connect ROBOT_IP 29999 then
    if connect ROBOT_IP 30003 then
      if connect ROBOT_IP 30004 then
        mkHandles (Some (mkConn ROBOT_IP 29999)) (Some (mkConn ROBOT_IP 30003))
                  (Some (mkConn ROBOT_IP 30004))
      else mkHandles None None None
    else mkHandles None None None
  else mkHandles None None None.

(** Truth value of a handle: an object is true, [None] is false. *)
Definition present (h : option Conn) : bool :=
  match h with
  | Some _ => true
  | None => false
  end.

(** A computation that may call the robot: it extends the log of calls and
    returns a value or raises. *)
Definition M (A : Type) : Type := Log -> Log * result A.

Definition ret {A : Type} (a : A) : M A := fun log => (log, Ok a).

Definition raise {A : Type} (e : exn) : M A := fun log => (log, Raise e).

Definition bind {A B : Type} (m : M A) (k : A -> M B) : M B :=
  fun log =>
    match m log with
    | (log', Ok a) => k a log'
    | (log', Raise e) => (log', Raise e)
    end.

Definition lift {A : Type} (r : result A) : M A := fun log => (log, r).

(** [try: body  except Exception as e: handler e]. *)
Definition try_except {A : Type} (body : M A) (handler : exn -> M A) : M A :=
  fun log =>
    match body log with
    | (log', Ok a) => (log', Ok a)
    | (log', Raise e) => handler e log'
    end.

Declare Scope py_scope.
Delimit Scope py_scope with py.
Notation "x <- m ;; k" := (bind m (fun x => k))
  (at level 61, m at next level, right associativity) : py_scope.
Local Open Scope py_scope.

(** What the view function hands back to Flask. *)
Record Response : Type := mkResponse { body : value; status_code : Z }.

(** [return b] gets status 200, [return b, code] gets [code]. *)
Definition make_response (b : value) (code : option Z) : Response :=
  mkResponse b (match code with Some c => c | None => 200 end).

(** [jsonify] serialises its argument; the response body is that value. *)
Definition jsonify (v : value) : value := v.

(** The request as the handlers read it: [request.path] and the value of
    [request.get_json()], which is the decoded body, [None], or an exception
    of the framework's own. *)
Record Request : Type := mkRequest { path : string; get_json : result value }.

Definition error_body (message : string) : value :=
  VDict [("status", VStr "error"); ("message", VStr message)].

Definition success_body (message : string) (robot_response : string) : value :=
  VDict [("status", VStr "success"); ("message", VStr message);
         ("robot_response", VStr robot_response)].

Definition not_connected_message : string :=
  "Dobot is not connected. Check the server logs for details.".

(** [check_dobot_connection()]. *)
Definition check_dobot_connection (h : Handles) : bool * value * option Z :=
  if negb (present (dashboard h)) || negb (present (move h))
     || negb (present (feed h))
  then (false, jsonify (error_body not_connected_message), Some 503)
  else (true, VNone, None).

(** The URL rules of the robot API, one name per [@app.route] line of the
    handlers below.  The rule ['/'] of [index], which renders a template,
    is not among them. *)
Inductive Endpoint : Type :=
| ConnectionCheck
| Enable
| Disable
| Stop
| Position
| MoveJ
| MoveL
| Speed.

Definition rule_path (e : Endpoint) : string :=
  match e with
  | ConnectionCheck => "/api/connection/check"
  | Enable => "/api/robot/enable"
  | Disable => "/api/robot/disable"
  | Stop => "/api/robot/stop"
  | Position => "/api/robot/position"
  | MoveJ => "/api/robot/move/j"
  | MoveL => "/api/robot/move/l"
  | Speed => "/api/robot/speed"
  end.

(** The endpoints that start with [check_dobot_connection()]. *)
Definition protected (e : Endpoint) : bool :=
  match e with
  | ConnectionCheck => false
  | _ => true
  end.

(** All three handles exist. *)
Definition connected (h : Handles) : bool :=
  present (dashboard h) && present (move h) && present (feed h).

Section Server.

(** The controller: from the calls made so far and the next call, how that
    call ends. *)
Variable robot : Log -> Call -> Outcome.

(** [h.method(args)]: on [None] the attribute lookup raises; on a
    connection the call is made and logged. *)
Definition call_on (h : option Conn) (c : Call) : M string :=
  match h with
  | None =>
      raise (mkExn AttributeError
               ("'NoneType' object has no attribute '" ++ method_name c ++ "'"))
  | Some _ =>
      fun log =>
        let o := robot log c in
        ((log ++ [(c, o)])%list,
         match o with
         | Reply s => Ok s
         | Fault msg => Raise (mkExn RemoteError msg)
         end)
  end.

(** [connection_check()]; the [print] in the handler only writes to the
    console. *)
Definition connection_check (h : Handles) : M Response :=
  let status := [("dashboard", VBool false); ("move", VBool false);
                 ("feed", VBool false)] in
  status <- (if present (dashboard h) then
               try_except
                 (_ <- call_on (dashboard h) GetErrorID ;;
                  ret (Py.dict_set status "dashboard" (VBool true)))
                 (fun e => ret (Py.dict_set status "dashboard" (VBool false)))
             else ret status) ;;
  status <- (if present (move h) then
               d <- lift (Py.getitem (VDict status) "dashboard") ;;
               ret (if Py.truthy d
                    then Py.dict_set status "move" (VBool true) else status)
             else ret status) ;;
  status <- (if present (feed h) then
               d <- lift (Py.getitem (VDict status) "dashboard") ;;
               ret (if Py.truthy d
                    then Py.dict_set status "feed" (VBool true) else status)
             else ret status) ;;
  ret (make_response (jsonify (VDict status)) None).

Definition enable_robot (h : Handles) : M Response :=
  let '(is_connected, error_response, status_code) :=
    check_dobot_connection h in
  if negb is_connected then ret (make_response error_response status_code)
  else
    try_except
      (result <- call_on (dashboard h) EnableRobot ;;
       ret (make_response
              (jsonify (success_body "Robot enabled." result)) None))
      (fun e => ret (make_response (jsonify (error_body (exn_str e)))
                                   (Some 500))).

Definition disable_robot (h : Handles) : M Response :=
  let '(is_connected, error_response, status_code) :=
    check_dobot_connection h in
  if negb is_connected then ret (make_response error_response status_code)
  else
    try_except
      (result <- call_on (dashboard h) DisableRobot ;;
       ret (make_response
              (jsonify (success_body "Robot disabled." result)) None))
      (fun e => ret (make_response (jsonify (error_body (exn_str e)))
                                   (Some 500))).

Definition stop_robot (h : Handles) : M Response :=
  let '(is_connected, error_response, status_code) :=
    check_dobot_connection h in
  if negb is_connected then ret (make_response error_response status_code)
  else
    try_except
      (result <- call_on (dashboard h) ResetRobot ;;
       ret (make_response
              (jsonify (success_body "Robot stopped and queue cleared."
                                     result))
              None))
      (fun e => ret (make_response (jsonify (error_body (exn_str e)))
                                   (Some 500))).

Definition get_position (h : Handles) : M Response :=
  let '(is_connected, error_response, status_code) :=
    check_dobot_connection h in
  if negb is_connected then ret (make_response error_response status_code)
  else
    try_except
      (pose_str <- call_on (dashboard h) GetPose ;;
       let parts := Str.split "(" (Str.replace ")" "" pose_str) in
       coords_str <- lift (Py.index parts 1) ;;
       coords <- lift (Py.comprehension PyFloat.float
                         (Str.split "," coords_str)) ;;
       x <- lift (Py.index coords 0) ;;
       y <- lift (Py.index coords 1) ;;
       z <- lift (Py.index coords 2) ;;
       r <- lift (Py.index coords 3) ;;
       ret (make_response
              (jsonify (VDict [("status", VStr "success");
                               ("position",
                                VDict [("x", VFloat x); ("y", VFloat y);
                                       ("z", VFloat z); ("r", VFloat r)]);
                               ("robot_response", VStr pose_str)]))
              None))
      (fun e =>
         ret (make_response
                (jsonify (error_body
                            ("Failed to parse position: " ++ exn_str e)))
                (Some 500))).

Definition move_robot (h : Handles) (request : Request) : M Response :=
  let '(is_connected, error_response, status_code) :=
    check_dobot_connection h in
  if negb is_connected then ret (make_response error_response status_code)
  else
    data <- lift (get_json request) ;;
    invalid <- (if negb (Py.truthy data) then ret true
                else
                  b <- lift (Py.all_in ["x"; "y"; "z"; "r"] data) ;;
                  ret (negb b)) ;;
    if invalid : bool then
      ret (make_response
             (jsonify (error_body "Invalid payload. Required keys: x, y, z, r"))
             (Some 400))
    else
      x <- lift (Py.getitem data "x") ;;
      y <- lift (Py.getitem data "y") ;;
      z <- lift (Py.getitem data "z") ;;
      r <- lift (Py.getitem data "r") ;;
      let move_type :=
        if Str.contains "move/j" (path request) then "MovJ" else "MovL" in
      try_except
        (result <- (if String.eqb move_type "MovJ"
                    then call_on (move h) (MovJ x y z r)
                    else call_on (move h) (MovL x y z r)) ;;
         _ <- call_on (move h) Sync ;;
         ret (make_response
                (jsonify (success_body
                            ("Executing " ++ move_type ++ " to ("
                             ++ Py.str x ++ ", " ++ Py.str y ++ ", "
                             ++ Py.str z ++ ", " ++ Py.str r
                             ++ ") and waiting for completion.")
                            result))
                None))
        (fun e => ret (make_response (jsonify (error_body (exn_str e)))
                                     (Some 500))).

Definition set_speed (h : Handles) (request : Request) : M Response :=
  let '(is_connected, error_response, status_code) :=
    check_dobot_connection h in
  if negb is_connected then ret (make_response error_response status_code)
  else
    data <- lift (get_json request) ;;
    invalid <- (if negb (Py.truthy data) then ret true
                else
                  b <- lift (Py.contains "ratio" data) ;;
                  ret (negb b)) ;;
    if invalid : bool then
      ret (make_response
             (jsonify (error_body "Invalid payload. Required key: ratio"))
             (Some 400))
    else
      ratio <- lift (Py.getitem data "ratio") ;;
      in_range <- lift (Py.between 1 ratio 100) ;;
      if negb in_range then
        ret (make_response
               (jsonify (error_body "Speed ratio must be between 1 and 100."))
               (Some 400))
      else
        try_except
          (result <- call_on (dashboard h) (SpeedFactor ratio) ;;
           ret (make_response
                  (jsonify (success_body
                              ("Global speed set to " ++ Py.str ratio ++ "%.")
                              result))
                  None))
          (fun e => ret (make_response (jsonify (error_body (exn_str e)))
                                       (Some 500))).

(* ------------------------------------------------------------------- *)
(** *** The view functions *)

(** The view function bound to each URL rule. *)
Definition view (h : Handles) (e : Endpoint) (request : Request)
  : M Response :=
  match e with
  | ConnectionCheck => connection_check h
  | Enable => enable_robot h
  | Disable => disable_robot h
  | Stop => stop_robot h
  | Position => get_position h
  | MoveJ | MoveL => move_robot h request
  | Speed => set_speed h request
  end.

(** A request for [e]: its path is the rule's. *)
Definition serve (h : Handles) (e : Endpoint) (json : result value)
  : M Response :=
  view h e (mkRequest (rule_path e) json).

End Server.

(* ===================================================================== *)
(** ** Vocabulary of the statements *)
(* ===================================================================== *)

Definition server_error (message : string) : Response :=
  mkResponse (error_body message) 500.

Definition bad_request (message : string) : Response :=
  mkResponse (error_body message) 400.

Definition ok_response (message robot_response : string) : Response :=
  mkResponse (success_body message robot_response) 200.

Definition not_connected_response : Response :=
  mkResponse (error_body not_connected_message) 503.

(** The one call of [enable_robot], [disable_robot] and [stop_robot], with
    the message of the success envelope. *)
Definition command_call (e : Endpoint) : option (Call * string) :=
  match e with
  | Enable => Some (EnableRobot, "Robot enabled.")
  | Disable => Some (DisableRobot, "Robot disabled.")
  | Stop => Some (ResetRobot, "Robot stopped and queue cleared.")
  | _ => None
  end.

(** What [get_position] puts before [str(e)] in its error message. *)
Definition fault_prefix (e : Endpoint) : string :=
  match e with
  | Position => "Failed to parse position: "
  | _ => EmptyString
  end.

(** The text between the parentheses of a pose reply, cut at the commas;
    [None] when the reply has no second part to take. *)
Definition pose_fields (pose_str : string) : option (list string) :=
  match Str.split "(" (Str.replace ")" "" pose_str) with
  | _ :: coords_str :: _ => Some (Str.split "," coords_str)
  | _ => None
  end.

(** The pure part of the [try] block of [get_position]: the four
    coordinates of a reply, or the exception of the first step that fails. *)
Definition read_pose (pose_str : string)
  : result (float * float * float * float) :=
  match Py.index (Str.split "(" (Str.replace ")" "" pose_str)) 1 with
  | Raise e => Raise e
  | Ok coords_str =>
      match Py.comprehension PyFloat.float (Str.split "," coords_str) with
      | Raise e => Raise e
      | Ok coords =>
          match coords with
          | x :: y :: z :: r :: _ => Ok (x, y, z, r)
          | _ => Raise (mkExn IndexError "list index out of range")
          end
      end
  end.

Definition position_body (pose_str : string) (x y z r : float) : value :=
  VDict [("status", VStr "success");
         ("position", VDict [("x", VFloat x); ("y", VFloat y);
                             ("z", VFloat z); ("r", VFloat r)]);
         ("robot_response", VStr pose_str)].

Definition position_response (pose_str : string) : Response :=
  match read_pose pose_str with
  | Ok (x, y, z, r) => mkResponse (position_body pose_str x y z r) 200
  | Raise e => server_error ("Failed to parse position: " ++ exn_str e)
  end.

(** The motion command a path selects, and its name. *)
Definition motion_call (p : string) (x y z r : value) : Call :=
  if Str.contains "move/j" p then MovJ x y z r else MovL x y z r.

Definition motion_message (p : string) (x y z r : value) : string :=
  "Executing " ++ (if Str.contains "move/j" p then "MovJ" else "MovL")
  ++ " to (" ++ Py.str x ++ ", " ++ Py.str y ++ ", " ++ Py.str z ++ ", "
  ++ Py.str r ++ ") and waiting for completion.".

Definition speed_message (ratio : value) : string :=
  "Global speed set to " ++ Py.str ratio ++ "%.".

(** Values that [<=] orders against an int. *)
Definition orderable (v : value) : bool :=
  match v with
  | VBool _ | VInt _ | VFloat _ => true
  | _ => false
  end.

Definition replied (co : Call * Outcome) : Prop :=
  exists s, snd co = Reply s.

(** How a request ends, by what was sent to the robot: nothing; calls that
    all got a reply; or calls of which the last one raised. *)
Inductive Served (e : Endpoint) (log : Log) : Log * result Response -> Prop :=
| Served_local (r : result Response) :
    Served e log (log, r)
| Served_replied (calls : Log) (r : Response) :
    calls <> [] ->
    Forall replied calls ->
    status_code r = 200 \/ status_code r = 500 ->
    Served e log ((log ++ calls)%list, Ok r)
| Served_fault (calls : Log) (c : Call) (msg : string) :
    Forall replied calls ->
    Served e log ((log ++ calls ++ [(c, Fault msg)])%list,
                  Ok (server_error (fault_prefix e ++ msg))).

Definition is_reply (o : Outcome) : bool :=
  match o with
  | Reply _ => true
  | Fault _ => false
  end.

(** Sample controllers for concrete runs: one that answers every call, with a
    pose of (1, 2, 3, 4); one that raises on every call; one that raises on
    [Sync] only. *)
Definition steady_robot : Log -> Call -> Outcome :=
  fun _ c =>
    match c with
    | GetPose => Reply "0,{},GetPose(1.0,2.0,3.0,4.0)"
    | _ => Reply ("0,{}," ++ method_name c ++ "();")
    end.

Definition broken_robot (msg : string) : Log -> Call -> Outcome :=
  fun _ _ => Fault msg.

Definition stalled_robot (msg : string) : Log -> Call -> Outcome :=
  fun _ c =>
    match c with
    | Sync => Fault msg
    | _ => Reply ("0,{}," ++ method_name c ++ "();")
    end.

(** A controller whose pose reply is [s]. *)
Definition pose_robot (s : string) : Log -> Call -> Outcome :=
  fun _ _ => Reply s.

Definition all_handles : Handles :=
  mkHandles (Some (mkConn ROBOT_IP 29999)) (Some (mkConn ROBOT_IP 30003))
            (Some (mkConn ROBOT_IP 30004)).

Definition no_handles : Handles := mkHandles None None None.

(** A well-formed move request. *)
Definition sample_move : value :=
  VDict [("x", VInt 200); ("y", VInt 100); ("z", VInt 50); ("r", VInt 0)].

(** A float ratio outside [1,100]: below 1, above 100, or [nan]. *)
Definition float_outside (f : float) : Prop :=
  Py.float_cmp_int f 1 = Some Lt
  \/ Py.float_cmp_int f 100 = Some Gt
  \/ Py.float_cmp_int f 1 = None.

(** A start at which the dashboard and motion ports connect and the
    feedback port does not. *)
Definition feed_down : string -> Z -> bool :=
  fun _ port => negb (port =? 30004).

(** A pose reply with five fields. *)
Definition long_pose : list string := ["1.5"; "-2"; "3e1"; ".25"; "7"].

(** Text of ASCII characters only. *)
Definition ascii_text (s : string) : bool :=
  forallb (fun c => (nat_of_ascii c <? 128)%nat) (list_ascii_of_string s).



(** [Issues e json c]: on endpoint [e], a request whose body decodes to
    [json] passes the handler's own checks, and [c] is the first call the
    handler then makes. *)
Inductive Issues : Endpoint -> result value -> Call -> Prop :=
| Issues_enable json : Issues Enable json EnableRobot
| Issues_disable json : Issues Disable json DisableRobot
| Issues_stop json : Issues Stop json ResetRobot
| Issues_position json : Issues Position json GetPose
| Issues_move_j d x y z r :
    Py.dict_get d "x" = Some x -> Py.dict_get d "y" = Some y ->
    Py.dict_get d "z" = Some z -> Py.dict_get d "r" = Some r ->
    Issues MoveJ (Ok (VDict d)) (MovJ x y z r)
| Issues_move_l d x y z r :
    Py.dict_get d "x" = Some x -> Py.dict_get d "y" = Some y ->
    Py.dict_get d "z" = Some z -> Py.dict_get d "r" = Some r ->
    Issues MoveL (Ok (VDict d)) (MovL x y z r)
| Issues_speed d ratio :
    Py.dict_get d "ratio" = Some ratio ->
    Py.between 1 ratio 100 = Ok true ->
    Issues Speed (Ok (VDict d)) (SpeedFactor ratio).

(** A float ratio inside [1,100]. *)
Definition float_inside (f : float) : Prop :=
  (Py.float_cmp_int f 1 = Some Eq \/ Py.float_cmp_int f 1 = Some Gt)
  /\ (Py.float_cmp_int f 100 = Some Lt \/ Py.float_cmp_int f 100 = Some Eq).

(** Text without a parenthesis, and text that also has no comma: what the
    pose parser leaves whole. *)
Definition no_paren (s : string) : bool :=
  negb (Str.contains "(" s) && negb (Str.contains ")" s).

Definition plain (s : string) : bool :=
  no_paren s && negb (Str.contains "," s).

(** The "status" field of a response body. *)
Definition body_status (r : Response) : result value :=
  Py.getitem (body r) "status".

(** The endpoints that read the request body. *)
Definition reads_body (e : Endpoint) : bool :=
  match e with
  | MoveJ | MoveL | Speed => true
  | _ => false
  end.

(* ===================================================================== *)
(** ** Properties *)
(* ===================================================================== *)

Lemma connected_handles (h : Handles) :
  connected h = true ->
  exists d m f, h = mkHandles (Some d) (Some m) (Some f).
Proof.
  destruct h as [[d|] [m|] [f|]]; cbn; try discriminate.
  intros _. now exists d, m, f.
Qed.

Lemma not_connected_handles (h : Handles) :
  dashboard h = None \/ move h = None \/ feed h = None ->
  check_dobot_connection h
  = (false, error_body not_connected_message, Some 503).
Proof.
  destruct h as [[d|] [m|] [f|]]; cbn; intros [H|[H|H]];
    try discriminate; reflexivity.
Qed.

Lemma connected_or_not (h : Handles) :
  connected h = true
  \/ (dashboard h = None \/ move h = None \/ feed h = None).
Proof. destruct h as [[d|] [m|] [f|]]; cbn; auto. Qed.

Lemma startup_all_or_nothing (connect : string -> Z -> bool) :
  connected (startup connect) = true
  \/ startup connect = mkHandles None None None.
Proof.
  unfold startup.
  destruct (connect ROBOT_IP 29999), (connect ROBOT_IP 30003),
    (connect ROBOT_IP 30004); auto.
Qed.

Lemma startup_failure (connect : string -> Z -> bool) :
  connect ROBOT_IP 29999 && connect ROBOT_IP 30003 && connect ROBOT_IP 30004
  = false ->
  startup connect = mkHandles None None None.
Proof.
  unfold startup.
  destruct (connect ROBOT_IP 29999), (connect ROBOT_IP 30003),
    (connect ROBOT_IP 30004); cbn; congruence.
Qed.

Lemma dict_get_truthy d k v :
  Py.dict_get d k = Some v -> Py.truthy (VDict d) = true.
Proof. destruct d; [discriminate | reflexivity]. Qed.

(** *** Splitting a reply at a character *)

Lemma append_assoc (a b c : string) : ((a ++ b) ++ c = a ++ (b ++ c))%string.
Proof. induction a as [|x a IH]; cbn; [reflexivity | now rewrite IH]. Qed.

Lemma prefix_empty (s : string) : String.prefix EmptyString s = true.
Proof. destruct s; reflexivity. Qed.

Lemma prefix_char (c : ascii) (s : string) :
  String.prefix (String c EmptyString) s
  = match s with
    | String a _ => if ascii_dec c a then true else false
    | EmptyString => false
    end.
Proof.
  destruct s as [|a s]; cbn; [reflexivity|].
  destruct (ascii_dec c a); [apply prefix_empty | reflexivity].
Qed.

Lemma contains_char_cons (c a : ascii) (s : string) :
  Str.contains (String c EmptyString) (String a s)
  = (if ascii_dec c a then true else false)
    || Str.contains (String c EmptyString) s.
Proof.
  change (Str.contains (String c EmptyString) (String a s))
    with (String.prefix (String c EmptyString) (String a s)
          || Str.contains (String c EmptyString) s).
  now rewrite prefix_char.
Qed.

Lemma split_from_nonempty sep k cur s :
  exists f rest, Str.split_from sep k cur s = f :: rest.
Proof.
  revert k cur. induction s as [|a s IH]; intros k cur; cbn [Str.split_from].
  - now exists cur, [].
  - destruct k as [|k]; [|apply IH].
    destruct (String.prefix sep (String a s)); [|apply IH].
    now exists cur, (Str.split_from sep (Nat.pred (String.length sep))
                                   EmptyString s).
Qed.

(** Without the separator, the text is one field. *)
Lemma split_no_sep (c : ascii) (cur s : string) :
  Str.contains (String c EmptyString) s = false ->
  Str.split_from (String c EmptyString) O cur s = [(cur ++ s)%string].
Proof.
  revert cur. induction s as [|a s IH]; intros cur H.
  - cbn. clear H.
    induction cur as [|x cur IHc]; cbn; [reflexivity|].
    now injection IHc as <-.
  - rewrite contains_char_cons in H. apply orb_false_iff in H as [Ha Hs].
    cbn [Str.split_from]. rewrite prefix_char.
    destruct (ascii_dec c a); [discriminate|].
    rewrite (IH _ Hs), append_assoc. reflexivity.
Qed.

(** With the separator, there are at least two fields. *)
Lemma split_sep (c : ascii) (cur s : string) :
  Str.contains (String c EmptyString) s = true ->
  exists f1 f2 rest,
    Str.split_from (String c EmptyString) O cur s = f1 :: f2 :: rest.
Proof.
  revert cur. induction s as [|a s IH]; intros cur H; [discriminate|].
  rewrite contains_char_cons in H.
  cbn [Str.split_from]. rewrite prefix_char.
  destruct (ascii_dec c a) as [_|_].
  - destruct (split_from_nonempty (String c EmptyString)
                (Nat.pred (String.length (String c EmptyString)))
                EmptyString s) as (f & rest & ->).
    now exists cur, f, rest.
  - apply IH. exact H.
Qed.

(** Dropping one character keeps the occurrences of another. *)
Lemma contains_replace (c d : ascii) (s : string) :
  c <> d ->
  Str.contains (String c EmptyString)
    (Str.replace (String d EmptyString) EmptyString s)
  = Str.contains (String c EmptyString) s.
Proof.
  intros Hcd. unfold Str.replace.
  induction s as [|a s IH]; [reflexivity|].
  cbn [Str.replace_from]. rewrite prefix_char, contains_char_cons.
  destruct (ascii_dec d a) as [<-|Hda].
  - cbn [String.length Nat.pred String.append]. rewrite IH.
    destruct (ascii_dec c d); [contradiction | reflexivity].
  - rewrite contains_char_cons, IH. reflexivity.
Qed.

Lemma pose_fields_none (s : string) :
  pose_fields s = None <-> Str.contains "(" s = false.
Proof.
  unfold pose_fields, Str.split.
  destruct (Str.contains "(" s) eqn:H.
  - rewrite <- (contains_replace "(" ")" s) in H by discriminate.
    destruct (split_sep "(" EmptyString _ H) as (f1 & f2 & rest & ->).
    split; discriminate.
  - rewrite <- (contains_replace "(" ")" s) in H by discriminate.
    rewrite (split_no_sep "(" EmptyString _ H). split; reflexivity.
Qed.

Lemma comprehension_length {A B : Type} (f : A -> result B) l bs :
  Py.comprehension f l = Ok bs -> List.length bs = List.length l.
Proof.
  revert bs. induction l as [|a l IH]; intros bs; cbn.
  - now intros [= <-].
  - destruct (f a); [|discriminate].
    destruct (Py.comprehension f l); [|discriminate].
    intros [= <-]. cbn. now rewrite (IH _ eq_refl).
Qed.

Lemma comprehension_float_raises (fs : list string) :
  Exists (fun c => PyFloat.parse c = None) fs ->
  exists e, Py.comprehension PyFloat.float fs = Raise e
            /\ exn_class e = ValueError.
Proof.
  induction 1 as [c fs H|c fs H IH]; cbn; unfold PyFloat.float at 1.
  - rewrite H. eexists; split; reflexivity.
  - destruct (PyFloat.parse c); [|eexists; split; reflexivity].
    destruct IH as (e & -> & He). now exists e.
Qed.

Lemma comprehension_float_ok (fs : list string) :
  Forall (fun c => PyFloat.parse c <> None) fs ->
  exists coords, Py.comprehension PyFloat.float fs = Ok coords.
Proof.
  induction 1 as [|c fs H _ IH]; cbn; [now eexists|].
  unfold PyFloat.float at 1. destruct (PyFloat.parse c); [|contradiction].
  destruct IH as (coords & ->). now eexists.
Qed.

(** The three ways a reply fails to parse, and no other. *)
Lemma read_pose_raises (s : string) :
  (exists e, read_pose s = Raise e)
  <-> (Str.contains "(" s = false
       \/ exists fs, pose_fields s = Some fs
                     /\ (Exists (fun c => PyFloat.parse c = None) fs
                         \/ (List.length fs < 4)%nat)).
Proof.
  unfold read_pose, Py.index. split.
  - intros [e He].
    destruct (pose_fields s) as [fs|] eqn:Hf;
      [|left; now apply pose_fields_none].
    right. exists fs. split; [reflexivity|].
    unfold pose_fields in Hf.
    destruct (Str.split "(" (Str.replace ")" "" s)) as [|p0 [|coords_str ps]];
      try discriminate.
    injection Hf as <-. cbn [nth_error] in He.
    destruct (Exists_dec (fun c => PyFloat.parse c = None)
                (Str.split "," coords_str)) as [Hex|Hnex].
    { intros c. destruct (PyFloat.parse c); [right; discriminate | now left]. }
    + now left.
    + right. apply Forall_Exists_neg in Hnex.
      destruct (comprehension_float_ok _ Hnex) as (coords & Hco).
      rewrite Hco in He. apply comprehension_length in Hco.
      destruct coords as [|x [|y [|z [|r coords]]]]; cbn in Hco;
        try discriminate; lia.
  - intros [H|(fs & Hf & H)].
    + apply pose_fields_none in H. unfold pose_fields in H.
      destruct (Str.split "(" (Str.replace ")" "" s)) as [|p0 [|coords_str ps]];
        try discriminate; cbn; eexists; reflexivity.
    + unfold pose_fields in Hf.
      destruct (Str.split "(" (Str.replace ")" "" s)) as [|p0 [|coords_str ps]];
        try discriminate.
      injection Hf as <-. cbn [nth_error].
      destruct H as [H|H].
      * destruct (comprehension_float_raises _ H) as (e & -> & _). now exists e.
      * destruct (Py.comprehension PyFloat.float (Str.split "," coords_str))
          as [coords|e] eqn:Hco; [|now exists e].
        apply comprehension_length in Hco.
        destruct coords as [|x [|y [|z [|r coords]]]]; cbn in Hco;
          try (eexists; reflexivity); lia.
Qed.

(** Every exception of [read_pose] is an [IndexError] or a [ValueError]. *)
Lemma read_pose_exception (s : string) (e : exn) :
  read_pose s = Raise e ->
  exn_class e = IndexError \/ exn_class e = ValueError.
Proof.
  unfold read_pose, Py.index.
  destruct (nth_error _ 1) as [coords_str|]; [|intros [= <-]; now left].
  destruct (Py.comprehension _ _) as [coords|e'] eqn:Hco.
  - destruct coords as [|x [|y [|z [|r coords]]]]; intros [= <-]; now left.
  - intros [= ->]. right.
    revert Hco. generalize (Str.split "," coords_str) as fs.
    induction fs as [|c fs IH]; cbn; [discriminate|].
    unfold PyFloat.float at 1. destruct (PyFloat.parse c).
    + destruct (Py.comprehension PyFloat.float fs); [discriminate|].
      intros [= ->]. now apply IH.
    + now intros [= <-].
Qed.

(** *** Well-formed replies *)

Lemma append_nil_r (a : string) : (a ++ EmptyString)%string = a.
Proof. induction a as [|x a IH]; cbn; [reflexivity | now rewrite IH]. Qed.

Lemma contains_char_app (c : ascii) (a b : string) :
  Str.contains (String c EmptyString) (a ++ b)
  = Str.contains (String c EmptyString) a
    || Str.contains (String c EmptyString) b.
Proof.
  induction a as [|x a IH]; [reflexivity|].
  change ((String x a ++ b)%string) with (String x (a ++ b)%string).
  rewrite !contains_char_cons, IH. now rewrite orb_assoc.
Qed.

Lemma replace_char_app (d : ascii) (a b : string) :
  Str.replace (String d EmptyString) EmptyString (a ++ b)
  = (Str.replace (String d EmptyString) EmptyString a
     ++ Str.replace (String d EmptyString) EmptyString b)%string.
Proof.
  unfold Str.replace. induction a as [|x a IH]; [reflexivity|].
  change ((String x a ++ b)%string) with (String x (a ++ b)%string).
  cbn [Str.replace_from]. rewrite !prefix_char.
  destruct (ascii_dec d x);
    cbn [String.length Nat.pred String.append]; now rewrite IH.
Qed.

Lemma replace_no_char (d : ascii) (s : string) :
  Str.contains (String d EmptyString) s = false ->
  Str.replace (String d EmptyString) EmptyString s = s.
Proof.
  unfold Str.replace. induction s as [|x s IH]; [reflexivity|].
  rewrite contains_char_cons. intros H.
  apply orb_false_iff in H as [Hx Hs].
  cbn [Str.replace_from]. rewrite prefix_char.
  destruct (ascii_dec d x); [discriminate|]. now rewrite IH.
Qed.

Lemma split_app_sep (c : ascii) (cur a b : string) :
  Str.contains (String c EmptyString) a = false ->
  Str.split_from (String c EmptyString) O cur (a ++ String c b)
  = (cur ++ a)%string :: Str.split_from (String c EmptyString) O EmptyString b.
Proof.
  revert cur. induction a as [|x a IH]; intros cur H.
  - cbn [String.append Str.split_from]. rewrite prefix_char.
    destruct (ascii_dec c c); [|contradiction].
    now rewrite append_nil_r.
  - rewrite contains_char_cons in H. apply orb_false_iff in H as [Hx Ha].
    change ((String x a ++ String c b)%string)
      with (String x (a ++ String c b)%string).
    cbn [Str.split_from]. rewrite prefix_char.
    destruct (ascii_dec c x); [discriminate|].
    rewrite (IH _ Ha), append_assoc. reflexivity.
Qed.

(** Joining fields with a comma and splitting at the comma gives the fields
    back, when no field has a comma. *)
Lemma split_concat (fs : list string) :
  Forall (fun f => Str.contains "," f = false) fs ->
  fs <> [] ->
  Str.split "," (String.concat "," fs) = fs.
Proof.
  unfold Str.split. induction 1 as [|f fs Hf Hfs IH]; intros Hne;
    [contradiction|].
  destruct fs as [|g fs].
  - cbn [String.concat]. now rewrite (split_no_sep "," EmptyString f Hf).
  - change (String.concat "," (f :: g :: fs))
      with ((f ++ String "," (String.concat "," (g :: fs)))%string).
    rewrite (split_app_sep "," EmptyString f _ Hf).
    rewrite IH by discriminate. reflexivity.
Qed.

Lemma concat_no_char (c : ascii) (fs : list string) :
  c <> ","%char ->
  Forall (fun f => Str.contains (String c EmptyString) f = false) fs ->
  Str.contains (String c EmptyString) (String.concat "," fs) = false.
Proof.
  intros Hc. induction 1 as [|f fs Hf Hfs IH]; [reflexivity|].
  destruct fs as [|g fs]; [exact Hf|].
  change (String.concat "," (f :: g :: fs))
    with ((f ++ String "," (String.concat "," (g :: fs)))%string).
  rewrite contains_char_app, Hf, contains_char_cons, IH.
  destruct (ascii_dec c ","); [contradiction | reflexivity].
Qed.

Lemma plain_parts (f : string) :
  plain f = true ->
  Str.contains "(" f = false /\ Str.contains ")" f = false
  /\ Str.contains "," f = false.
Proof.
  unfold plain, no_paren. intros H.
  apply andb_true_iff in H as [H H3]. apply andb_true_iff in H as [H1 H2].
  now rewrite negb_true_iff in H1, H2, H3.
Qed.

(** A reply [head(f1,...,fn)] is cut into exactly the fields [f1 ... fn]. *)
Lemma pose_fields_well_formed (head : string) (fs : list string) :
  no_paren head = true ->
  Forall (fun f => plain f = true) fs ->
  fs <> [] ->
  pose_fields (head ++ "(" ++ String.concat "," fs ++ ")") = Some fs.
Proof.
  intros Hh Hfs Hne.
  unfold no_paren in Hh. apply andb_true_iff in Hh as [Hh1 Hh2].
  rewrite negb_true_iff in Hh1, Hh2.
  assert (Hb1 : Str.contains "(" (String.concat "," fs) = false).
  { apply concat_no_char; [discriminate|].
    eapply Forall_impl; [|exact Hfs]. intros f Hf. apply (plain_parts f Hf). }
  assert (Hb2 : Str.contains ")" (String.concat "," fs) = false).
  { apply concat_no_char; [discriminate|].
    eapply Forall_impl; [|exact Hfs]. intros f Hf. apply (plain_parts f Hf). }
  unfold pose_fields.
  rewrite !(replace_char_app ")").
  rewrite (replace_no_char ")" head Hh2), (replace_no_char ")" _ Hb2).
  change (Str.replace ")" "" "(") with "(".
  change (Str.replace ")" "" ")") with EmptyString.
  rewrite append_nil_r. unfold Str.split.
  change (("(" ++ String.concat "," fs)%string)
    with (String "(" (String.concat "," fs)).
  rewrite (split_app_sep "(" EmptyString head _ Hh1).
  rewrite (split_no_sep "(" EmptyString _ Hb1).
  cbn [String.append]. f_equal. apply split_concat; [|exact Hne].
  eapply Forall_impl; [|exact Hfs]. intros f Hf. apply (plain_parts f Hf).
Qed.

Section Properties.

Variable robot : Log -> Call -> Outcome.

Lemma not_connected_503 h e json log :
  protected e = true ->
  dashboard h = None \/ move h = None \/ feed h = None ->
  serve robot h e json log = (log, Ok not_connected_response).
Proof.
  intros Hp Hh. apply not_connected_handles in Hh.
  destruct e; try discriminate; cbn;
    unfold enable_robot, disable_robot, stop_robot, get_position,
      move_robot, set_speed;
    rewrite Hh; reflexivity.
Qed.

(** After a failed start every protected endpoint answers 503. *)
Lemma startup_failure_503 connect e json log :
  protected e = true ->
  connect ROBOT_IP 29999 && connect ROBOT_IP 30003 && connect ROBOT_IP 30004
  = false ->
  serve robot (startup connect) e json log = (log, Ok not_connected_response).
Proof.
  intros Hp Hc. rewrite (startup_failure _ Hc).
  apply not_connected_503; auto.
Qed.

Lemma command_run h e c message json log :
  connected h = true ->
  command_call e = Some (c, message) ->
  serve robot h e json log
  = ((log ++ [(c, robot log c)])%list,
     Ok (match robot log c with
         | Reply s => ok_response message s
         | Fault msg => server_error msg
         end)).
Proof.
  intros Hc He. destruct (connected_handles h Hc) as (d & m & f & ->).
  destruct e; inversion He; subst; cbn;
    unfold try_except, bind, call_on, ret; cbn;
    destruct (robot log _); reflexivity.
Qed.

Lemma get_position_run h log :
  connected h = true ->
  get_position robot h log
  = ((log ++ [(GetPose, robot log GetPose)])%list,
     Ok (match robot log GetPose with
         | Reply s => position_response s
         | Fault msg => server_error ("Failed to parse position: " ++ msg)
         end)).
Proof.
  intros Hc. destruct (connected_handles h Hc) as (d & m & f & ->).
  unfold get_position, position_response, read_pose.
  cbn [check_dobot_connection dashboard move feed present negb orb].
  unfold try_except, bind, call_on, ret, lift. cbn [dashboard].
  destruct (robot log GetPose) as [s|msg]; [|reflexivity].
  destruct (Py.index _ 1) as [coords_str|e]; [|reflexivity].
  destruct (Py.comprehension _ _) as [coords|e]; [|reflexivity].
  destruct coords as [|x [|y [|z [|r coords]]]]; reflexivity.
Qed.

Lemma move_robot_run h request d x y z r log :
  connected h = true ->
  get_json request = Ok (VDict d) ->
  Py.dict_get d "x" = Some x ->
  Py.dict_get d "y" = Some y ->
  Py.dict_get d "z" = Some z ->
  Py.dict_get d "r" = Some r ->
  let c := motion_call (path request) x y z r in
  move_robot robot h request log
  = match robot log c with
    | Fault msg => ((log ++ [(c, Fault msg)])%list, Ok (server_error msg))
    | Reply s =>
        match robot (log ++ [(c, Reply s)])%list Sync with
        | Fault msg =>
            ((log ++ [(c, Reply s); (Sync, Fault msg)])%list,
             Ok (server_error msg))
        | Reply s' =>
            ((log ++ [(c, Reply s); (Sync, Reply s')])%list,
             Ok (ok_response (motion_message (path request) x y z r) s))
        end
    end.
Proof.
  intros Hc Hj Hx Hy Hz Hr c. subst c.
  destruct (connected_handles h Hc) as (hd & hm & hf & ->).
  unfold move_robot, motion_call, motion_message.
  cbn [check_dobot_connection dashboard move feed present negb orb].
  unfold try_except, bind, call_on, ret, lift. cbn [move].
  rewrite Hj, (dict_get_truthy _ _ _ Hx).
  cbn [negb Py.all_in Py.contains Py.getitem].
  rewrite Hx, Hy, Hz, Hr. cbn [negb].
  destruct (Str.contains "move/j" (path request));
    cbn [String.eqb Ascii.eqb Bool.eqb];
    cbn -[String.append app];
    destruct (robot log _) as [s|msg]; try reflexivity;
    destruct (robot _ Sync) as [s'|msg]; rewrite <- app_assoc; reflexivity.
Qed.

Ltac break_if :=
  match goal with
  | |- context [if ?b then _ else _] =>
      lazymatch b with
      | context [if _ then _ else _] => fail
      | context [match _ with _ => _ end] => fail
      | _ => destruct b eqn:?
      end
  end.

Lemma move_robot_cases h request log :
  connected h = true ->
  (exists d x y z r,
      get_json request = Ok (VDict d)
      /\ Py.dict_get d "x" = Some x /\ Py.dict_get d "y" = Some y
      /\ Py.dict_get d "z" = Some z /\ Py.dict_get d "r" = Some r)
  \/ move_robot robot h request log
     = (log, Ok (bad_request "Invalid payload. Required keys: x, y, z, r"))
  \/ exists e, move_robot robot h request log = (log, Raise e).
Proof.
  intros Hc. destruct (connected_handles h Hc) as (hd & hm & hf & ->).
  unfold move_robot.
  cbn [check_dobot_connection dashboard move feed present negb orb].
  unfold bind, ret, lift.
  destruct (get_json request) as [data|e];
    [|right; right; eexists; reflexivity].
  destruct data as [|b|n|f|s|l|d].
  - right; left; reflexivity.
  - destruct b; cbn;
      [right; right; eexists; reflexivity | right; left; reflexivity].
  - cbn [Py.truthy]. destruct (n =? 0); cbn;
      [right; left; reflexivity | right; right; eexists; reflexivity].
  - cbn [Py.truthy]. destruct (PrimFloat.eqb f zero); cbn;
      [right; left; reflexivity | right; right; eexists; reflexivity].
  - right. cbn [Py.truthy Py.all_in Py.contains Py.getitem].
    destruct (String.eqb s EmptyString); cbn [negb]; [left; reflexivity|].
    repeat (break_if; cbn [negb]; [|left; reflexivity]).
    right; eexists; reflexivity.
  - right. cbn [Py.truthy Py.all_in Py.contains Py.getitem].
    destruct l as [|v l]; cbn [negb]; [left; reflexivity|].
    repeat match goal with
           | |- context [if existsb ?f ?l then _ else _] =>
               destruct (existsb f l) eqn:?; cbn [negb];
               [|left; reflexivity]
           end.
    right; eexists; reflexivity.
  - cbn [Py.truthy Py.all_in Py.contains Py.getitem].
    destruct d as [|kv d]; cbn [negb]; [right; left; reflexivity|].
    destruct (Py.dict_get (kv :: d) "x") as [x|] eqn:Hx;
      [|right; left; reflexivity].
    destruct (Py.dict_get (kv :: d) "y") as [y|] eqn:Hy;
      [|right; left; reflexivity].
    destruct (Py.dict_get (kv :: d) "z") as [z|] eqn:Hz;
      [|right; left; reflexivity].
    destruct (Py.dict_get (kv :: d) "r") as [r|] eqn:Hr;
      [|right; left; reflexivity].
    left. exists (kv :: d), x, y, z, r. auto.
Qed.

Lemma set_speed_checked h request d ratio log :
  connected h = true ->
  get_json request = Ok (VDict d) ->
  Py.dict_get d "ratio" = Some ratio ->
  set_speed robot h request log
  = match Py.between 1 ratio 100 with
    | Raise e => (log, Raise e)
    | Ok false =>
        (log, Ok (bad_request "Speed ratio must be between 1 and 100."))
    | Ok true =>
        let c := SpeedFactor ratio in
        ((log ++ [(c, robot log c)])%list,
         Ok (match robot log c with
             | Reply s => ok_response (speed_message ratio) s
             | Fault msg => server_error msg
             end))
    end.
Proof.
  intros Hc Hj Hr.
  destruct (connected_handles h Hc) as (hd & hm & hf & ->).
  unfold set_speed, speed_message.
  cbn [check_dobot_connection dashboard move feed present negb orb].
  unfold try_except, bind, call_on, ret, lift. cbn [dashboard].
  rewrite Hj, (dict_get_truthy _ _ _ Hr).
  cbn [negb Py.contains Py.getitem]. rewrite Hr. cbn [negb].
  destruct (Py.between 1 ratio 100) as [[|]|e]; cbn [negb]; try reflexivity.
  destruct (robot log (SpeedFactor ratio)); reflexivity.
Qed.

Lemma set_speed_cases h request log :
  connected h = true ->
  (exists d ratio,
      get_json request = Ok (VDict d)
      /\ Py.dict_get d "ratio" = Some ratio)
  \/ set_speed robot h request log
     = (log, Ok (bad_request "Invalid payload. Required key: ratio"))
  \/ exists e, set_speed robot h request log = (log, Raise e).
Proof.
  intros Hc. destruct (connected_handles h Hc) as (hd & hm & hf & ->).
  unfold set_speed.
  cbn [check_dobot_connection dashboard move feed present negb orb].
  unfold bind, ret, lift.
  destruct (get_json request) as [data|e];
    [|right; right; eexists; reflexivity].
  destruct data as [|b|n|f|s|l|d].
  - right; left; reflexivity.
  - destruct b; cbn;
      [right; right; eexists; reflexivity | right; left; reflexivity].
  - cbn [Py.truthy]. destruct (n =? 0); cbn;
      [right; left; reflexivity | right; right; eexists; reflexivity].
  - cbn [Py.truthy]. destruct (PrimFloat.eqb f zero); cbn;
      [right; left; reflexivity | right; right; eexists; reflexivity].
  - right. cbn [Py.truthy Py.contains Py.getitem].
    destruct (String.eqb s EmptyString); cbn [negb]; [left; reflexivity|].
    destruct (Str.contains "ratio" s); cbn [negb];
      [right; eexists; reflexivity | left; reflexivity].
  - right. cbn [Py.truthy Py.contains Py.getitem].
    destruct l as [|v l]; cbn [negb]; [left; reflexivity|].
    destruct (existsb _ (v :: l)); cbn [negb];
      [right; eexists; reflexivity | left; reflexivity].
  - cbn [Py.truthy Py.contains Py.getitem].
    destruct d as [|kv d]; cbn [negb]; [right; left; reflexivity|].
    destruct (Py.dict_get (kv :: d) "ratio") as [ratio|] eqn:Hr;
      [|right; left; reflexivity].
    left. exists (kv :: d), ratio. auto.
Qed.

Lemma Served_one e log c o (r : Response) :
  match o with
  | Reply _ => status_code r = 200 \/ status_code r = 500
  | Fault msg => r = server_error (fault_prefix e ++ msg)
  end ->
  Served e log ((log ++ [(c, o)])%list, Ok r).
Proof.
  destruct o as [s|msg]; intros H.
  - apply Served_replied; [discriminate | | exact H].
    repeat constructor. now exists s.
  - subst r. apply (Served_fault e log [] c msg). constructor.
Qed.

(** Every protected endpoint ends in one of the three ways of [Served]. *)
Lemma serve_Served h e json log :
  protected e = true ->
  Served e log (serve robot h e json log).
Proof.
  intros Hp.
  destruct (connected_or_not h) as [Hc|Hn];
    [|rewrite (not_connected_503 h e json log Hp Hn); apply Served_local].
  destruct e; try discriminate.
  1-3: erewrite command_run by (try eassumption; reflexivity);
    apply Served_one; destruct (robot log _); cbn; auto.
  - unfold serve, view. rewrite get_position_run by assumption.
    apply Served_one. destruct (robot log GetPose) as [s|msg]; [|reflexivity].
    unfold position_response.
    destruct (read_pose s) as [[[[x y] z] r]|]; cbn; auto.
  - unfold serve, view.
    destruct (move_robot_cases h (mkRequest (rule_path MoveJ) json) log Hc)
      as [(d & x & y & z & r & Hj & Hx & Hy & Hz & Hr)|[->| [ex ->]]];
      try apply Served_local.
    rewrite (move_robot_run h _ d x y z r log Hc Hj Hx Hy Hz Hr).
    destruct (robot log _) as [s|msg]; [|apply Served_one; reflexivity].
    destruct (robot _ Sync) as [s'|msg].
    + apply Served_replied; [discriminate | | cbn; auto].
      repeat constructor; eexists; reflexivity.
    + apply (Served_fault MoveJ log [_] Sync msg).
      repeat constructor; eexists; reflexivity.
  - unfold serve, view.
    destruct (move_robot_cases h (mkRequest (rule_path MoveL) json) log Hc)
      as [(d & x & y & z & r & Hj & Hx & Hy & Hz & Hr)|[->| [ex ->]]];
      try apply Served_local.
    rewrite (move_robot_run h _ d x y z r log Hc Hj Hx Hy Hz Hr).
    destruct (robot log _) as [s|msg]; [|apply Served_one; reflexivity].
    destruct (robot _ Sync) as [s'|msg].
    + apply Served_replied; [discriminate | | cbn; auto].
      repeat constructor; eexists; reflexivity.
    + apply (Served_fault MoveL log [_] Sync msg).
      repeat constructor; eexists; reflexivity.
  - unfold serve, view.
    destruct (set_speed_cases h (mkRequest (rule_path Speed) json) log Hc)
      as [(d & ratio & Hj & Hr)|[->| [ex ->]]]; try apply Served_local.
    rewrite (set_speed_checked h _ d ratio log Hc Hj Hr).
    destruct (Py.between 1 ratio 100) as [[|]|ex]; try apply Served_local.
    apply Served_one. destruct (robot log _); cbn; auto.
Qed.

Lemma connection_check_run h log :
  let alive := present (dashboard h) && is_reply (robot log GetErrorID) in
  connection_check robot h log
  = ((if present (dashboard h)
      then log ++ [(GetErrorID, robot log GetErrorID)] else log)%list,
     Ok (mkResponse
           (VDict [("dashboard", VBool alive);
                   ("move", VBool (present (move h) && alive));
                   ("feed", VBool (present (feed h) && alive))])
           200)).
Proof.
  destruct h as [[d|] [m|] [f|]]; cbn;
    unfold connection_check, try_except, bind, call_on, ret, lift; cbn;
    try reflexivity;
    destruct (robot log GetErrorID); reflexivity.
Qed.


(* ------------------------------------------------------------------- *)
(** *** The claims *)

(** C1: on every protected endpoint (enable, disable, stop, position,
    move/j, move/l, speed), when one of the three handles is [None] the
    response is 503 with status "error" and the not-connected message, and
    nothing is sent to the robot. *)
Theorem not_connected_returns_503 h e json log :
  protected e = true ->
  dashboard h = None \/ move h = None \/ feed h = None ->
  serve robot h e json log
  = (log,
     Ok (mkResponse
           (VDict [("status", VStr "error");
                   ("message",
                    VStr not_connected_message)])
           503)).
Proof. apply not_connected_503. Qed.

(** C2: on every command endpoint, for a request that passes the handler's
    checks on a connected server: when the robot raises a fault with text
    [msg] at the call the handler makes, that call is the last one of the
    request and the response is 500 with status "error" and a message that
    carries [msg] -- the text itself, or for the position endpoint the text
    after "Failed to parse position: ".  On the move endpoints the same
    holds when the motion command is answered and [Sync] raises. *)
Theorem remote_fault_returns_500 h e json log c calls msg :
  connected h = true ->
  Issues e json c ->
  (robot log c = Fault msg /\ calls = [(c, Fault msg)])
  \/ ((e = MoveJ \/ e = MoveL)
      /\ exists s,
           robot log c = Reply s
           /\ robot (log ++ [(c, Reply s)])%list Sync = Fault msg
           /\ calls = [(c, Reply s); (Sync, Fault msg)]) ->
  serve robot h e json log
  = ((log ++ calls)%list,
     Ok (mkResponse
           (VDict [("status", VStr "error");
                   ("message", VStr (fault_prefix e ++ msg))])
           500)).
Proof.
  intros Hc Hi Hf.
  destruct Hi as [json|json|json|json|d x y z r Hx Hy Hz Hr
                 |d x y z r Hx Hy Hz Hr|d ratio Hr Hb].
  1-3: destruct Hf as [[Hf ->]|[[He|He] _]]; try discriminate;
       erewrite command_run by (try eassumption; reflexivity);
       rewrite Hf; reflexivity.
  - destruct Hf as [[Hf ->]|[[He|He] _]]; try discriminate.
    unfold serve, view. rewrite get_position_run by assumption.
    rewrite Hf. reflexivity.
  - unfold serve, view.
    rewrite (move_robot_run h (mkRequest _ _) d x y z r log Hc eq_refl
               Hx Hy Hz Hr).
    change (motion_call (path (mkRequest (rule_path MoveJ) (Ok (VDict d))))
              x y z r) with (MovJ x y z r).
    destruct Hf as [[Hf ->]|[_ (s & Hs & Hf & ->)]].
    + rewrite Hf. reflexivity.
    + rewrite Hs, Hf. reflexivity.
  - unfold serve, view.
    rewrite (move_robot_run h (mkRequest _ _) d x y z r log Hc eq_refl
               Hx Hy Hz Hr).
    change (motion_call (path (mkRequest (rule_path MoveL) (Ok (VDict d))))
              x y z r) with (MovL x y z r).
    destruct Hf as [[Hf ->]|[_ (s & Hs & Hf & ->)]].
    + rewrite Hf. reflexivity.
    + rewrite Hs, Hf. reflexivity.
  - destruct Hf as [[Hf ->]|[[He|He] _]]; try discriminate.
    unfold serve, view.
    rewrite (set_speed_checked h (mkRequest _ _) d ratio log Hc eq_refl Hr).
    rewrite Hb. cbv zeta. rewrite Hf. reflexivity.
Qed.

(** C3: with all handles present and the pose reply
    "0,{},GetPose(1.0,2.0,3.0,4.0)", the position endpoint answers 200 with
    status "success", the position x = 1.0, y = 2.0, z = 3.0, r = 4.0 (the
    four numbers between the parentheses, in order) and the raw reply. *)
Theorem get_position_parses_reply h json log :
  connected h = true ->
  robot log GetPose = Reply "0,{},GetPose(1.0,2.0,3.0,4.0)" ->
  serve robot h Position json log
  = ((log ++ [(GetPose, Reply "0,{},GetPose(1.0,2.0,3.0,4.0)")])%list,
     Ok (mkResponse
           (VDict [("status", VStr "success");
                   ("position",
                    VDict [("x", VFloat 1); ("y", VFloat 2);
                           ("z", VFloat 3); ("r", VFloat 4)]);
                   ("robot_response", VStr "0,{},GetPose(1.0,2.0,3.0,4.0)")])
           200)).
Proof.
  intros Hc Hr. unfold serve, view.
  rewrite get_position_run by assumption. rewrite Hr.
  assert (position_response "0,{},GetPose(1.0,2.0,3.0,4.0)"
          = mkResponse
              (position_body "0,{},GetPose(1.0,2.0,3.0,4.0)" 1 2 3 4) 200)
    as -> by (vm_compute; reflexivity).
  reflexivity.
Qed.

(** C4: on the speed endpoint with all handles present and an integer
    ratio: outside [1,100] the response is 400 and nothing is sent to the
    robot; inside, 1 and 100 included, [SpeedFactor] is called once with
    that ratio and its outcome decides the response. *)
Theorem set_speed_range_check h d z json log :
  connected h = true ->
  json = Ok (VDict d) ->
  Py.dict_get d "ratio" = Some (VInt z) ->
  (z < 1 \/ 100 < z ->
   serve robot h Speed json log
   = (log,
      Ok (mkResponse
            (VDict [("status", VStr "error");
                    ("message", VStr "Speed ratio must be between 1 and 100.")])
            400)))
  /\ (1 <= z <= 100 ->
      let c := SpeedFactor (VInt z) in
      serve robot h Speed json log
      = ((log ++ [(c, robot log c)])%list,
         Ok (match robot log c with
             | Reply s =>
                 ok_response
                   ("Global speed set to " ++ PyRepr.int_str z ++ "%.") s
             | Fault msg => server_error msg
             end))).
Proof.
  intros Hc -> Hr. unfold serve, view.
  rewrite (set_speed_checked h (mkRequest _ _) d (VInt z) log Hc eq_refl Hr).
  unfold Py.between, Py.int_le, Py.le_int. split; intros Hz.
  - destruct (Z.leb_spec 1 z); [|reflexivity].
    destruct (Z.leb_spec z 100); [lia | reflexivity].
  - destruct (Z.leb_spec 1 z); [|lia].
    destruct (Z.leb_spec z 100); [reflexivity | lia].
Qed.


(** C6: the connection check always answers 200 with three booleans:
    dashboard is true iff the dashboard handle exists and the one
    [GetErrorID] call on it gets a reply; move (feed) is true iff the move
    (feed) handle exists and dashboard is true.  [GetErrorID] is the only
    call, made once when the dashboard handle exists. *)
Theorem connection_check_status h json log :
  let alive := present (dashboard h) && is_reply (robot log GetErrorID) in
  serve robot h ConnectionCheck json log
  = ((if present (dashboard h)
      then log ++ [(GetErrorID, robot log GetErrorID)] else log)%list,
     Ok (mkResponse
           (VDict [("dashboard", VBool alive);
                   ("move", VBool (present (move h) && alive));
                   ("feed", VBool (present (feed h) && alive))])
           200)).
Proof. apply connection_check_run. Qed.

(** C7: a valid move request (all handles present, the four keys present)
    sends exactly one motion command first, [MovJ(x,y,z,r)] on move/j and
    [MovL(x,y,z,r)] on move/l.  When it gets a reply, [Sync()] is called
    next, and the success response is produced only after [Sync] has
    replied; a fault of either call ends the request with 500. *)
Theorem move_sends_motion_then_sync h e d x y z r json log :
  connected h = true ->
  e = MoveJ \/ e = MoveL ->
  json = Ok (VDict d) ->
  Py.dict_get d "x" = Some x ->
  Py.dict_get d "y" = Some y ->
  Py.dict_get d "z" = Some z ->
  Py.dict_get d "r" = Some r ->
  let c := match e with MoveJ => MovJ x y z r | _ => MovL x y z r end in
  let name := match e with MoveJ => "MovJ" | _ => "MovL" end in
  serve robot h e json log
  = match robot log c with
    | Fault msg => ((log ++ [(c, Fault msg)])%list, Ok (server_error msg))
    | Reply s =>
        match robot (log ++ [(c, Reply s)])%list Sync with
        | Fault msg =>
            ((log ++ [(c, Reply s); (Sync, Fault msg)])%list,
             Ok (server_error msg))
        | Reply s' =>
            ((log ++ [(c, Reply s); (Sync, Reply s')])%list,
             Ok (ok_response
                   ("Executing " ++ name ++ " to (" ++ Py.str x ++ ", "
                    ++ Py.str y ++ ", " ++ Py.str z ++ ", " ++ Py.str r
                    ++ ") and waiting for completion.")
                   s))
        end
    end.
Proof.
  intros Hc He -> Hx Hy Hz Hr. unfold serve, view.
  destruct He as [-> | ->];
    rewrite (move_robot_run h (mkRequest _ _) d x y z r log Hc eq_refl
               Hx Hy Hz Hr);
    reflexivity.
Qed.

(** C8: on the position endpoint with all handles present, a reply that
    fails to parse -- no opening parenthesis, a field of ASCII text that is
    not a number, or fewer than four fields -- gets 500 with status "error"
    and the one message "Failed to parse position: " followed by the text of
    the exception; the body has no other field.  Without an opening
    parenthesis that text is "list index out of range". *)
Theorem position_parse_failure_returns_500 h json log s :
  connected h = true ->
  robot log GetPose = Reply s ->
  Str.contains "(" s = false
  \/ (exists fs,
         pose_fields s = Some fs
         /\ (Exists (fun c => ascii_text c = true /\ PyFloat.parse c = None) fs
             \/ (List.length fs < 4)%nat)) ->
  exists detail,
    (Str.contains "(" s = false -> detail = "list index out of range")
    /\ serve robot h Position json log
       = ((log ++ [(GetPose, Reply s)])%list,
          Ok (mkResponse
                (VDict [("status", VStr "error");
                        ("message",
                         VStr ("Failed to parse position: " ++ detail))])
                500)).
Proof.
  intros Hc Hr Hbad.
  assert (Hraise : exists e, read_pose s = Raise e).
  { apply read_pose_raises.
    destruct Hbad as [H|(fs & Hf & [H|H])]; [now left | |].
    - right. exists fs. split; [exact Hf|]. left.
      eapply Exists_impl; [|exact H]. now intros c [_ Hp].
    - right. exists fs. auto. }
  destruct Hraise as [e He]. exists (exn_str e). split.
  - intros Hno. apply pose_fields_none in Hno.
    unfold read_pose, Py.index in He. unfold pose_fields in Hno.
    destruct (Str.split "(" (Str.replace ")" "" s)) as [|p0 [|p1 ps]];
      try discriminate; cbn in He; now injection He as <-.
  - unfold serve, view. rewrite get_position_run by assumption.
    rewrite Hr. unfold position_response. rewrite He. reflexivity.
Qed.

(** C9: on any endpoint, a response with status 503 or 400 -- the
    not-connected answer and the payload and range rejections -- comes with
    no remote call made for the request. *)
Theorem validation_error_makes_no_remote_call h e json log log' r :
  serve robot h e json log = (log', Ok r) ->
  status_code r = 503 \/ status_code r = 400 ->
  log' = log.
Proof.
  intros Hs Hcode.
  destruct (protected e) eqn:Hp.
  - pose proof (serve_Served h e json log Hp) as S. rewrite Hs in S.
    inversion S as [r0 Hl|calls0 r0 Hne Hall Hc Hl|calls0 c0 msg0 Hall Hl];
      subst; [reflexivity | lia | cbn in Hcode; lia].
  - destruct e; try discriminate. unfold serve, view in Hs.
    rewrite connection_check_run in Hs. injection Hs as _ <-.
    cbn in Hcode. lia.
Qed.

(** C10: on the speed endpoint with all handles present, a ratio that is
    present but is not a number (a string, a list, an object, null) makes
    the range check raise [TypeError] outside any [try]: the handler returns
    no response, neither the 400 nor the 500 envelope, and nothing is sent
    to the robot. *)
Theorem speed_unorderable_ratio_raises h d ratio json log :
  connected h = true ->
  json = Ok (VDict d) ->
  Py.dict_get d "ratio" = Some ratio ->
  orderable ratio = false ->
  serve robot h Speed json log
  = (log,
     Raise (mkExn TypeError
              ("'<=' not supported between instances of 'int' and '"
               ++ Py.type_name ratio ++ "'"))).
Proof.
  intros Hc -> Hr Ho. unfold serve, view.
  rewrite (set_speed_checked h (mkRequest _ _) d ratio log Hc eq_refl Hr).
  destruct ratio; try discriminate; reflexivity.
Qed.

End Properties.

(* ===================================================================== *)
(** ** Further properties of the handlers *)
(* ===================================================================== *)

Lemma between_raises a v b e :
  Py.between a v b = Raise e -> exn_class e = TypeError.
Proof.
  unfold Py.between, Py.int_le, Py.le_int.
  destruct v; try (intros [= <-]; reflexivity);
    match goal with
    | |- context [if ?c then _ else _] => destruct c
    | |- context [match ?c with _ => _ end] => destruct c as [[| |]|]
    end; discriminate.
Qed.

Lemma app_eq_self {A : Type} (l calls : list A) :
  (l ++ calls)%list = l -> calls = [].
Proof.
  intros H. rewrite <- (app_nil_r l) in H at 2.
  now apply app_inv_head in H.
Qed.

Section Answers.

Variable robot : Log -> Call -> Outcome.

Lemma move_robot_rejects h request log :
  connected h = true ->
  (exists d x y z r,
      get_json request = Ok (VDict d)
      /\ Py.dict_get d "x" = Some x /\ Py.dict_get d "y" = Some y
      /\ Py.dict_get d "z" = Some z /\ Py.dict_get d "r" = Some r)
  \/ move_robot robot h request log
     = (log, Ok (bad_request "Invalid payload. Required keys: x, y, z, r"))
  \/ exists ex,
       move_robot robot h request log = (log, Raise ex)
       /\ (get_json request = Raise ex \/ exn_class ex = TypeError).
Proof.
  intros Hc. destruct (connected_handles h Hc) as (hd & hm & hf & ->).
  unfold move_robot.
  cbn [check_dobot_connection dashboard move feed present negb orb].
  unfold bind, ret, lift.
  destruct (get_json request) as [data|e];
    [|right; right; eexists; split; [reflexivity | now left]].
  destruct data as [|b|n|f|s|l|d].
  - right; left; reflexivity.
  - destruct b; cbn;
      [right; right; eexists; split; [reflexivity | now right]
      | right; left; reflexivity].
  - cbn [Py.truthy]. destruct (n =? 0); cbn;
      [right; left; reflexivity
      | right; right; eexists; split; [reflexivity | now right]].
  - cbn [Py.truthy]. destruct (PrimFloat.eqb f zero); cbn;
      [right; left; reflexivity
      | right; right; eexists; split; [reflexivity | now right]].
  - right. cbn [Py.truthy Py.all_in Py.contains Py.getitem].
    destruct (String.eqb s EmptyString); cbn [negb]; [left; reflexivity|].
    repeat match goal with
           | |- context [if Str.contains ?k s then _ else _] =>
               destruct (Str.contains k s) eqn:?; cbn [negb];
               [|left; reflexivity]
           end.
    right; eexists; split; [reflexivity | now right].
  - right. cbn [Py.truthy Py.all_in Py.contains Py.getitem].
    destruct l as [|v l]; cbn [negb]; [left; reflexivity|].
    repeat match goal with
           | |- context [if existsb ?f ?l then _ else _] =>
               destruct (existsb f l) eqn:?; cbn [negb];
               [|left; reflexivity]
           end.
    right; eexists; split; [reflexivity | now right].
  - cbn [Py.truthy Py.all_in Py.contains Py.getitem].
    destruct d as [|kv d]; cbn [negb]; [right; left; reflexivity|].
    destruct (Py.dict_get (kv :: d) "x") as [x|] eqn:Hx;
      [|right; left; reflexivity].
    destruct (Py.dict_get (kv :: d) "y") as [y|] eqn:Hy;
      [|right; left; reflexivity].
    destruct (Py.dict_get (kv :: d) "z") as [z|] eqn:Hz;
      [|right; left; reflexivity].
    destruct (Py.dict_get (kv :: d) "r") as [r|] eqn:Hr;
      [|right; left; reflexivity].
    left. exists (kv :: d), x, y, z, r. auto.
Qed.

Lemma set_speed_rejects h request log :
  connected h = true ->
  (exists d ratio,
      get_json request = Ok (VDict d)
      /\ Py.dict_get d "ratio" = Some ratio)
  \/ set_speed robot h request log
     = (log, Ok (bad_request "Invalid payload. Required key: ratio"))
  \/ exists ex,
       set_speed robot h request log = (log, Raise ex)
       /\ (get_json request = Raise ex \/ exn_class ex = TypeError).
Proof.
  intros Hc. destruct (connected_handles h Hc) as (hd & hm & hf & ->).
  unfold set_speed.
  cbn [check_dobot_connection dashboard move feed present negb orb].
  unfold bind, ret, lift.
  destruct (get_json request) as [data|e];
    [|right; right; eexists; split; [reflexivity | now left]].
  destruct data as [|b|n|f|s|l|d].
  - right; left; reflexivity.
  - destruct b; cbn;
      [right; right; eexists; split; [reflexivity | now right]
      | right; left; reflexivity].
  - cbn [Py.truthy]. destruct (n =? 0); cbn;
      [right; left; reflexivity
      | right; right; eexists; split; [reflexivity | now right]].
  - cbn [Py.truthy]. destruct (PrimFloat.eqb f zero); cbn;
      [right; left; reflexivity
      | right; right; eexists; split; [reflexivity | now right]].
  - right. cbn [Py.truthy Py.contains Py.getitem].
    destruct (String.eqb s EmptyString); cbn [negb]; [left; reflexivity|].
    destruct (Str.contains "ratio" s); cbn [negb];
      [right; eexists; split; [reflexivity | now right] | left; reflexivity].
  - right. cbn [Py.truthy Py.contains Py.getitem].
    destruct l as [|v l]; cbn [negb]; [left; reflexivity|].
    destruct (existsb _ (v :: l)); cbn [negb];
      [right; eexists; split; [reflexivity | now right] | left; reflexivity].
  - cbn [Py.truthy Py.contains Py.getitem].
    destruct d as [|kv d]; cbn [negb]; [right; left; reflexivity|].
    destruct (Py.dict_get (kv :: d) "ratio") as [ratio|] eqn:Hr;
      [|right; left; reflexivity].
    left. exists (kv :: d), ratio. auto.
Qed.

(** The four ways a protected endpoint answers. *)
Lemma serve_answer h e json log :
  protected e = true ->
  serve robot h e json log = (log, Ok not_connected_response)
  \/ (exists m, serve robot h e json log = (log, Ok (bad_request m)))
  \/ (exists ex,
         serve robot h e json log = (log, Raise ex)
         /\ reads_body e = true
         /\ (json = Raise ex \/ exn_class ex = TypeError))
  \/ (exists calls r,
         calls <> []
         /\ serve robot h e json log = ((log ++ calls)%list, Ok r)
         /\ ((status_code r = 200 /\ body_status r = Ok (VStr "success"))
             \/ (status_code r = 500 /\ body_status r = Ok (VStr "error")))).
Proof.
  intros Hp.
  destruct (connected_or_not h) as [Hc|Hn];
    [|left; apply not_connected_503; assumption].
  right. destruct e; try discriminate.
  1-3: right; right; eexists; eexists; split; [|split;
         [eapply command_run; [eassumption | reflexivity]|]];
       [discriminate | destruct (robot log _); cbn; auto].
  - right; right. unfold serve, view.
    rewrite get_position_run by assumption.
    eexists; eexists; split; [|split; [reflexivity|]]; [discriminate|].
    destruct (robot log GetPose) as [s|msg]; [|cbn; auto].
    unfold position_response.
    destruct (read_pose s) as [[[[x y] z] r]|]; cbn; auto.
  - unfold serve, view.
    destruct (move_robot_rejects h (mkRequest (rule_path MoveJ) json) log Hc)
      as [(d & x & y & z & r & Hj & Hx & Hy & Hz & Hr)|[->|(ex & -> & Hex)]].
    + right; right.
      rewrite (move_robot_run robot h _ d x y z r log Hc Hj Hx Hy Hz Hr).
      destruct (robot log _) as [s|msg].
      * destruct (robot _ Sync) as [s'|msg];
          eexists; eexists; (split; [|split; [reflexivity|]]);
          try discriminate; cbn; auto.
      * exists [(motion_call (rule_path MoveJ) x y z r, Fault msg)].
        eexists; split; [|split; [reflexivity|]];
          try discriminate; cbn; auto.
    + left. eexists; reflexivity.
    + right; left. exists ex. auto.
  - unfold serve, view.
    destruct (move_robot_rejects h (mkRequest (rule_path MoveL) json) log Hc)
      as [(d & x & y & z & r & Hj & Hx & Hy & Hz & Hr)|[->|(ex & -> & Hex)]].
    + right; right.
      rewrite (move_robot_run robot h _ d x y z r log Hc Hj Hx Hy Hz Hr).
      destruct (robot log _) as [s|msg].
      * destruct (robot _ Sync) as [s'|msg];
          eexists; eexists; (split; [|split; [reflexivity|]]);
          try discriminate; cbn; auto.
      * exists [(motion_call (rule_path MoveL) x y z r, Fault msg)].
        eexists; split; [|split; [reflexivity|]];
          try discriminate; cbn; auto.
    + left. eexists; reflexivity.
    + right; left. exists ex. auto.
  - unfold serve, view.
    destruct (set_speed_rejects h (mkRequest (rule_path Speed) json) log Hc)
      as [(d & ratio & Hj & Hr)|[->|(ex & -> & Hex)]].
    + rewrite (set_speed_checked robot h _ d ratio log Hc Hj Hr).
      destruct (Py.between 1 ratio 100) as [[|]|ex] eqn:Hb.
      * right; right. eexists; eexists; split; [|split; [reflexivity|]];
          [discriminate|].
        destruct (robot log _); cbn; auto.
      * left. eexists; reflexivity.
      * right; left. exists ex. split; [reflexivity|]. split; [reflexivity|].
        right. exact (between_raises _ _ _ _ Hb).
    + left. eexists; reflexivity.
    + right; left. exists ex. auto.
Qed.

(** One failed connection disables all: when any of the three constructors
    raises at start, all three handles are [None], whichever connections
    had succeeded, and so every protected endpoint answers 503. *)
Theorem failed_start_clears_all_handles connect :
  connect ROBOT_IP 29999 && connect ROBOT_IP 30003 && connect ROBOT_IP 30004
  = false ->
  startup connect = mkHandles None None None
  /\ forall e json log,
       protected e = true ->
       serve robot (startup connect) e json log
       = (log, Ok (mkResponse (error_body not_connected_message) 503)).
Proof.
  intros Hc. rewrite (startup_failure _ Hc). split; [reflexivity|].
  intros e json log Hp. apply not_connected_503; [exact Hp | now left].
Qed.

(** On the handles that the start leaves, the connection check reports the
    three channels with one and the same value: all connections made and
    [GetErrorID] answered.  [GetErrorID] is sent only after a full start. *)
Theorem connection_check_after_startup connect json log :
  let up := connect ROBOT_IP 29999 && connect ROBOT_IP 30003
            && connect ROBOT_IP 30004 in
  let alive := up && is_reply (robot log GetErrorID) in
  serve robot (startup connect) ConnectionCheck json log
  = ((if up then log ++ [(GetErrorID, robot log GetErrorID)] else log)%list,
     Ok (mkResponse
           (VDict [("dashboard", VBool alive); ("move", VBool alive);
                   ("feed", VBool alive)])
           200)).
Proof.
  unfold serve, view. rewrite connection_check_run. unfold startup.
  destruct (connect ROBOT_IP 29999), (connect ROBOT_IP 30003),
    (connect ROBOT_IP 30004); cbn;
    try reflexivity; destruct (robot log GetErrorID); reflexivity.
Qed.

(** Enable, disable and stop, on a connected server whose one call is
    answered: the response is 200 with status "success", the endpoint's
    message and the controller's reply as it came. *)
Theorem command_success h e c message s json log :
  connected h = true ->
  command_call e = Some (c, message) ->
  robot log c = Reply s ->
  serve robot h e json log
  = ((log ++ [(c, Reply s)])%list,
     Ok (mkResponse
           (VDict [("status", VStr "success"); ("message", VStr message);
                   ("robot_response", VStr s)])
           200)).
Proof.
  intros Hc He Hr. rewrite (command_run robot h e c message json log Hc He).
  rewrite Hr. reflexivity.
Qed.

Lemma comprehension_float_values (fs : list string) (vs : list float) :
  Forall2 (fun f v => PyFloat.parse f = Some v) fs vs ->
  Py.comprehension PyFloat.float fs = Ok vs.
Proof.
  induction 1 as [|f v fs vs Hf _ IH]; [reflexivity|].
  cbn [Py.comprehension]. unfold PyFloat.float at 1. now rewrite Hf, IH.
Qed.

(** A reply of the form [head(f1,...,fn)], with no parenthesis in [head] and
    no parenthesis or comma inside a field, whose fields are all numbers and
    at least four: the position is the first four numbers, in order; the
    fields after the fourth are read and dropped. *)
Theorem position_reads_first_four_fields h head fs x y z r rest json log :
  connected h = true ->
  robot log GetPose = Reply (head ++ "(" ++ String.concat "," fs ++ ")") ->
  no_paren head = true ->
  Forall (fun f => plain f = true) fs ->
  Forall2 (fun f v => PyFloat.parse f = Some v) fs (x :: y :: z :: r :: rest) ->
  serve robot h Position json log
  = ((log ++ [(GetPose,
               Reply (head ++ "(" ++ String.concat "," fs ++ ")"))])%list,
     Ok (mkResponse
           (VDict [("status", VStr "success");
                   ("position",
                    VDict [("x", VFloat x); ("y", VFloat y);
                           ("z", VFloat z); ("r", VFloat r)]);
                   ("robot_response",
                    VStr (head ++ "(" ++ String.concat "," fs ++ ")"))])
           200)).
Proof.
  intros Hc Hr Hh Hp Hv. unfold serve, view.
  rewrite get_position_run by assumption. rewrite Hr.
  assert (Hne : fs <> []) by (intros ->; inversion Hv).
  pose proof (pose_fields_well_formed head fs Hh Hp Hne) as Hf.
  unfold position_response, read_pose, Py.index.
  unfold pose_fields in Hf.
  destruct (Str.split "(" (Str.replace ")" "" _)) as [|p0 [|coords_str ps]];
    try discriminate.
  injection Hf as Hf. cbn [nth_error]. rewrite Hf.
  rewrite (comprehension_float_values _ _ Hv). reflexivity.
Qed.

(** For a reply of ASCII text, the position endpoint answers 200 exactly
    when, with the closing parentheses removed, the reply has an opening
    parenthesis and the text from the first one to the next one (or to the
    end), cut at the commas, is at least four fields that are all numbers;
    every other reply gets 500. *)
Theorem position_succeeds_iff h s json log :
  connected h = true ->
  ascii_text s = true ->
  robot log GetPose = Reply s ->
  exists resp,
    serve robot h Position json log
    = ((log ++ [(GetPose, Reply s)])%list, Ok resp)
    /\ (status_code resp = 200 \/ status_code resp = 500)
    /\ (status_code resp = 200
        <-> exists fs, pose_fields s = Some fs
                       /\ Forall (fun c => PyFloat.parse c <> None) fs
                       /\ (4 <= List.length fs)%nat).
Proof.
  intros Hc _ Hr. unfold serve, view.
  rewrite get_position_run by assumption. rewrite Hr.
  eexists; split; [reflexivity|].
  pose proof (read_pose_raises s) as Hiff.
  unfold position_response.
  destruct (read_pose s) as [[[[x y] z] r]|e]; cbn [status_code server_error].
  - split; [now left|]. split; [intros _|reflexivity].
    destruct (pose_fields s) as [fs|] eqn:Hf.
    + exists fs. split; [reflexivity|].
      assert (Hno : ~ (Exists (fun c => PyFloat.parse c = None) fs
                       \/ (List.length fs < 4)%nat)).
      { intros H. destruct (proj2 Hiff) as [e He]; [|discriminate].
        right. now exists fs. }
      split.
      * apply Forall_forall. intros c Hin Hbad. apply Hno. left.
        apply Exists_exists. now exists c.
      * lia.
    + apply pose_fields_none in Hf.
      destruct (proj2 Hiff) as [e He]; [now left | discriminate].
  - split; [now right|]. split; [discriminate|].
    intros (fs & Hf & Hall & Hlen). exfalso.
    destruct (proj1 Hiff) as [Hno|(fs' & Hf' & [Hex|Hlt])]; [now exists e| | |].
    + apply pose_fields_none in Hno. congruence.
    + rewrite Hf in Hf'. injection Hf' as <-.
      apply Exists_exists in Hex as (c & Hin & Hbad).
      rewrite Forall_forall in Hall. exact (Hall c Hin Hbad).
    + rewrite Hf in Hf'. injection Hf' as <-. lia.
Qed.

(** On the speed endpoint with all handles present, a body that is absent or
    an object without the key "ratio" gets 400 with the message naming the
    key, and nothing is sent to the robot. *)
Theorem speed_missing_ratio_returns_400 h json log :
  connected h = true ->
  json = Ok VNone
  \/ (exists d, json = Ok (VDict d) /\ Py.dict_get d "ratio" = None) ->
  serve robot h Speed json log
  = (log,
     Ok (mkResponse
           (VDict [("status", VStr "error");
                   ("message", VStr "Invalid payload. Required key: ratio")])
           400)).
Proof.
  intros Hc Hj. destruct (connected_handles h Hc) as (hd & hm & hf & ->).
  unfold serve, view, set_speed.
  cbn [check_dobot_connection dashboard move feed present negb orb].
  unfold bind, ret, lift. cbn [get_json].
  destruct Hj as [->|(d & -> & Hd)]; [reflexivity|].
  cbn [Py.truthy Py.contains]. destruct d as [|kv d]; [reflexivity|].
  cbn [negb]. rewrite Hd. reflexivity.
Qed.

(** The range check of the speed endpoint takes a float as it takes an int:
    below 1, above 100 or NaN gets the 400 range message with no call; from
    1 to 100, whole or not, the float goes to [SpeedFactor] unchanged. *)
Theorem speed_float_ratio h d f json log :
  connected h = true ->
  json = Ok (VDict d) ->
  Py.dict_get d "ratio" = Some (VFloat f) ->
  (float_outside f ->
   serve robot h Speed json log
   = (log,
      Ok (mkResponse
            (VDict [("status", VStr "error");
                    ("message", VStr "Speed ratio must be between 1 and 100.")])
            400)))
  /\ (float_inside f ->
      let c := SpeedFactor (VFloat f) in
      serve robot h Speed json log
      = ((log ++ [(c, robot log c)])%list,
         Ok (match robot log c with
             | Reply s =>
                 ok_response
                   ("Global speed set to " ++ PyRepr.float_repr f ++ "%.") s
             | Fault msg => server_error msg
             end))).
Proof.
  intros Hc -> Hr. unfold serve, view.
  rewrite (set_speed_checked robot h (mkRequest _ _) d (VFloat f) log Hc
             eq_refl Hr).
  unfold Py.between, Py.int_le, Py.le_int. split.
  - intros [->|[H| ->]]; try reflexivity.
    rewrite H. now destruct (Py.float_cmp_int f 1) as [[| |]|].
  - intros [[-> | ->] [-> | ->]]; reflexivity.
Qed.

(** An exception leaves a protected handler only from the endpoints that
    read a body (move/j, move/l, speed), only before anything is sent to the
    robot, and it is either the exception [get_json()] raised or a
    [TypeError] from a body or ratio of the wrong type. *)
Theorem exception_escapes_before_any_call h e json log log' ex :
  protected e = true ->
  serve robot h e json log = (log', Raise ex) ->
  log' = log
  /\ reads_body e = true
  /\ (json = Raise ex \/ exn_class ex = TypeError).
Proof.
  intros Hp Hs.
  destruct (serve_answer h e json log Hp)
    as [H|[(m & H)|[(ex' & H & Hb & Hex)|(calls & r & _ & H & _)]]];
    rewrite H in Hs; try discriminate.
  injection Hs as <- <-. auto.
Qed.

(** The connection check, enable, disable, stop and position never let an
    exception out: whatever the handles, the robot and its reply, they end
    in a response, with status 200, 500 or 503. *)
Theorem bodyless_endpoints_always_respond h e json log :
  reads_body e = false ->
  exists log' r,
    serve robot h e json log = (log', Ok r)
    /\ (status_code r = 200 \/ status_code r = 500 \/ status_code r = 503).
Proof.
  intros Hb.
  destruct e; try discriminate.
  - unfold serve, view. rewrite connection_check_run.
    eexists; eexists; split; [reflexivity | cbn; auto].
  - destruct (connected_or_not h) as [Hc|Hn].
    + rewrite (command_run robot h Enable _ _ json log Hc eq_refl).
      eexists; eexists; split; [reflexivity|].
      destruct (robot log _); cbn; auto.
    + rewrite (not_connected_503 robot h Enable json log eq_refl Hn).
      eexists; eexists; split; [reflexivity | cbn; auto].
  - destruct (connected_or_not h) as [Hc|Hn].
    + rewrite (command_run robot h Disable _ _ json log Hc eq_refl).
      eexists; eexists; split; [reflexivity|].
      destruct (robot log _); cbn; auto.
    + rewrite (not_connected_503 robot h Disable json log eq_refl Hn).
      eexists; eexists; split; [reflexivity | cbn; auto].
  - destruct (connected_or_not h) as [Hc|Hn].
    + rewrite (command_run robot h Stop _ _ json log Hc eq_refl).
      eexists; eexists; split; [reflexivity|].
      destruct (robot log _); cbn; auto.
    + rewrite (not_connected_503 robot h Stop json log eq_refl Hn).
      eexists; eexists; split; [reflexivity | cbn; auto].
  - destruct (connected_or_not h) as [Hc|Hn].
    + unfold serve, view. rewrite get_position_run by assumption.
      eexists; eexists; split; [reflexivity|].
      destruct (robot log GetPose) as [s|msg]; [|cbn; auto].
      unfold position_response.
      destruct (read_pose s) as [[[[x y] z] r]|]; cbn; auto.
    + rewrite (not_connected_503 robot h Position json log eq_refl Hn).
      eexists; eexists; split; [reflexivity | cbn; auto].
Qed.

(** The HTTP status and the "status" field of the body always agree on a
    protected endpoint: 200 comes with "success", and 400, 500 and 503, the
    only other codes, come with "error". *)
Theorem status_matches_envelope h e json log log' r :
  protected e = true ->
  serve robot h e json log = (log', Ok r) ->
  (status_code r = 200 /\ body_status r = Ok (VStr "success"))
  \/ ((status_code r = 400 \/ status_code r = 500 \/ status_code r = 503)
      /\ body_status r = Ok (VStr "error")).
Proof.
  intros Hp Hs.
  destruct (serve_answer h e json log Hp)
    as [H|[(m & H)|[(ex' & H & _)|(calls & r' & _ & H & Hr)]]];
    rewrite H in Hs; try discriminate; injection Hs as <- <-.
  - right. cbn. auto.
  - right. cbn. auto.
  - destruct Hr as [[H1 H2]|[H1 H2]]; [left | right]; auto.
Qed.

(** The status tells whether the robot was reached: a response of a
    protected endpoint has status 400 or 503 exactly when no remote call was
    made for the request; 200 and 500 are only produced after a call. *)
Theorem status_tells_robot_contact h e json log log' r :
  protected e = true ->
  serve robot h e json log = (log', Ok r) ->
  (log' = log <-> status_code r = 400 \/ status_code r = 503).
Proof.
  intros Hp Hs.
  destruct (serve_answer h e json log Hp)
    as [H|[(m & H)|[(ex' & H & _)|(calls & r' & Hne & H & Hr)]]];
    rewrite H in Hs; try discriminate; injection Hs as <- <-.
  - split; [intros _; now right | reflexivity].
  - split; [intros _; now left | reflexivity].
  - split.
    + intros Heq. apply app_eq_self in Heq. contradiction.
    + intros [H4|H5]; destruct Hr as [[H1 _]|[H1 _]]; lia.
Qed.

(** The key test of the move endpoints is also passed by a list that holds
    the four strings "x", "y", "z" and "r"; reading the coordinates then
    raises [TypeError] outside any [try], with nothing sent to the robot. *)
Theorem move_list_body_raises h e l json log :
  connected h = true ->
  e = MoveJ \/ e = MoveL ->
  json = Ok (VList l) ->
  (forall k, In k ["x"; "y"; "z"; "r"] -> In (VStr k) l) ->
  serve robot h e json log
  = (log,
     Raise (mkExn TypeError
              "list indices must be integers or slices, not str")).
Proof.
  intros Hc He -> Hin.
  destruct (connected_handles h Hc) as (hd & hm & hf & ->).
  assert (Hk : forall k, In k ["x"; "y"; "z"; "r"] ->
                 existsb (fun v => match v with
                                   | VStr s => String.eqb s k
                                   | _ => false
                                   end) l = true).
  { intros k Hkin. apply existsb_exists. exists (VStr k).
    split; [now apply Hin | apply String.eqb_refl]. }
  assert (Hl : Py.truthy (VList l) = true).
  { destruct l; [|reflexivity]. destruct (Hin "x"); cbn; auto. }
  destruct He as [-> | ->]; unfold serve, view, move_robot;
    cbn [check_dobot_connection dashboard move feed present negb orb];
    unfold bind, ret, lift; cbn [get_json]; rewrite Hl;
    cbn [negb Py.all_in Py.contains];
    rewrite !Hk by (cbn; auto); reflexivity.
Qed.

End Answers.

(* ===================================================================== *)
(** ** Concrete runs *)
(* ===================================================================== *)

(** The range check does not ask for an integer: 50.5 goes through. *)
Example set_speed_accepts_fraction :
  serve steady_robot all_handles Speed (Ok (VDict [("ratio", VFloat 50.5)])) []
  = ([(SpeedFactor (VFloat 50.5), Reply "0,{},SpeedFactor();")],
     Ok (ok_response "Global speed set to 50.5%." "0,{},SpeedFactor();")).
Proof. vm_compute. reflexivity. Qed.

(** A float ratio outside the range is rejected like an integer one. *)
Lemma set_speed_float_out_of_range robot h d f request log :
  connected h = true ->
  get_json request = Ok (VDict d) ->
  Py.dict_get d "ratio" = Some (VFloat f) ->
  float_outside f ->
  set_speed robot h request log
  = (log, Ok (bad_request "Speed ratio must be between 1 and 100.")).
Proof.
  intros Hc Hj Hr Hf.
  rewrite (set_speed_checked robot h request d (VFloat f) log Hc Hj Hr).
  unfold Py.between, Py.int_le, Py.le_int.
  destruct Hf as [->|[H| ->]]; try reflexivity.
  rewrite H. now destruct (Py.float_cmp_int f 1) as [[| |]|].
Qed.

(** A body that is a bare number is not a container: the key test raises
    before any response is built. *)
Example move_scalar_body_raises :
  serve steady_robot all_handles MoveJ (Ok (VInt 5)) []
  = ([], Raise (mkExn TypeError "argument of type 'int' is not iterable")).
Proof. vm_compute. reflexivity. Qed.

Lemma not_connected_returns_503_witness :
  protected MoveJ = true
  /\ (dashboard (mkHandles (Some (mkConn ROBOT_IP 29999)) None
                           (Some (mkConn ROBOT_IP 30004))) = None
      \/ move (mkHandles (Some (mkConn ROBOT_IP 29999)) None
                         (Some (mkConn ROBOT_IP 30004))) = None
      \/ feed (mkHandles (Some (mkConn ROBOT_IP 29999)) None
                         (Some (mkConn ROBOT_IP 30004))) = None)
  /\ serve steady_robot
       (mkHandles (Some (mkConn ROBOT_IP 29999)) None
                  (Some (mkConn ROBOT_IP 30004)))
       MoveJ (Ok VNone) []
     = ([],
        Ok (mkResponse
              (VDict [("status", VStr "error");
                      ("message",
                       VStr not_connected_message)])
              503)).
Proof.
  split; [reflexivity|]. split; [right; left; reflexivity|].
  apply (not_connected_returns_503 steady_robot
           (mkHandles (Some (mkConn ROBOT_IP 29999)) None
                      (Some (mkConn ROBOT_IP 30004)))
           MoveJ (Ok VNone) []);
    [reflexivity | right; left; reflexivity].
Defined.

Lemma remote_fault_returns_500_witness :
  connected all_handles = true
  /\ Issues Position (Ok VNone) GetPose
  /\ broken_robot "link lost" [] GetPose = Fault "link lost"
  /\ serve (broken_robot "link lost") all_handles Position (Ok VNone) []
     = (([] ++ [(GetPose, Fault "link lost")])%list,
        Ok (mkResponse
              (VDict [("status", VStr "error");
                      ("message",
                       VStr (fault_prefix Position ++ "link lost"))])
              500))
  /\ Issues MoveJ (Ok sample_move)
       (MovJ (VInt 200) (VInt 100) (VInt 50) (VInt 0))
  /\ stalled_robot "sync timeout" []
       (MovJ (VInt 200) (VInt 100) (VInt 50) (VInt 0))
     = Reply "0,{},MovJ();"
  /\ stalled_robot "sync timeout"
       ([] ++ [(MovJ (VInt 200) (VInt 100) (VInt 50) (VInt 0),
                Reply "0,{},MovJ();")])%list
       Sync
     = Fault "sync timeout"
  /\ serve (stalled_robot "sync timeout") all_handles MoveJ (Ok sample_move) []
     = (([] ++ [(MovJ (VInt 200) (VInt 100) (VInt 50) (VInt 0),
                 Reply "0,{},MovJ();");
                (Sync, Fault "sync timeout")])%list,
        Ok (mkResponse
              (VDict [("status", VStr "error");
                      ("message", VStr (fault_prefix MoveJ ++ "sync timeout"))])
              500)).
Proof.
  assert (Hi : Issues MoveJ (Ok sample_move)
                 (MovJ (VInt 200) (VInt 100) (VInt 50) (VInt 0)))
    by (apply Issues_move_j; reflexivity).
  split; [reflexivity|]. split; [constructor|]. split; [reflexivity|].
  split.
  - apply (remote_fault_returns_500 (broken_robot "link lost") all_handles
             Position (Ok VNone) [] GetPose
             [(GetPose, Fault "link lost")] "link lost");
      [reflexivity | constructor | left; split; reflexivity].
  - split; [exact Hi|]. split; [reflexivity|]. split; [reflexivity|].
    apply (remote_fault_returns_500 (stalled_robot "sync timeout")
             all_handles MoveJ (Ok sample_move) []
             (MovJ (VInt 200) (VInt 100) (VInt 50) (VInt 0))
             [(MovJ (VInt 200) (VInt 100) (VInt 50) (VInt 0),
               Reply "0,{},MovJ();");
              (Sync, Fault "sync timeout")]
             "sync timeout");
      [reflexivity | exact Hi |].
    right. split; [now left|]. exists "0,{},MovJ();".
    split; [reflexivity|]. split; reflexivity.
Defined.

Lemma get_position_parses_reply_witness :
  connected all_handles = true
  /\ steady_robot [] GetPose = Reply "0,{},GetPose(1.0,2.0,3.0,4.0)"
  /\ serve steady_robot all_handles Position (Ok VNone) []
     = (([] ++ [(GetPose, Reply "0,{},GetPose(1.0,2.0,3.0,4.0)")])%list,
        Ok (mkResponse
              (VDict [("status", VStr "success");
                      ("position",
                       VDict [("x", VFloat 1); ("y", VFloat 2);
                              ("z", VFloat 3); ("r", VFloat 4)]);
                      ("robot_response", VStr "0,{},GetPose(1.0,2.0,3.0,4.0)")])
              200)).
Proof.
  split; [reflexivity|]. split; [reflexivity|].
  apply (get_position_parses_reply steady_robot all_handles (Ok VNone) []);
    reflexivity.
Defined.

Lemma set_speed_range_check_witness :
  connected all_handles = true
  /\ Py.dict_get [("ratio", VInt 100)] "ratio" = Some (VInt 100)
  /\ 1 <= 100 <= 100
  /\ serve steady_robot all_handles Speed (Ok (VDict [("ratio", VInt 100)])) []
     = (([] ++ [(SpeedFactor (VInt 100),
                 steady_robot [] (SpeedFactor (VInt 100)))])%list,
        Ok (match steady_robot [] (SpeedFactor (VInt 100)) with
            | Reply s =>
                ok_response
                  ("Global speed set to " ++ PyRepr.int_str 100 ++ "%.") s
            | Fault msg => server_error msg
            end))
  /\ Py.dict_get [("ratio", VInt 101)] "ratio" = Some (VInt 101)
  /\ (101 < 1 \/ 100 < 101)
  /\ serve steady_robot all_handles Speed (Ok (VDict [("ratio", VInt 101)])) []
     = ([],
        Ok (mkResponse
              (VDict [("status", VStr "error");
                      ("message",
                       VStr "Speed ratio must be between 1 and 100.")])
              400)).
Proof.
  split; [reflexivity|]. split; [reflexivity|]. split; [lia|].
  split.
  - apply (set_speed_range_check steady_robot all_handles
             [("ratio", VInt 100)] 100 (Ok (VDict [("ratio", VInt 100)])) []);
      [reflexivity | reflexivity | reflexivity | lia].
  - split; [reflexivity|]. split; [lia|].
    apply (set_speed_range_check steady_robot all_handles
             [("ratio", VInt 101)] 101 (Ok (VDict [("ratio", VInt 101)])) []);
      [reflexivity | reflexivity | reflexivity | lia].
Defined.



Lemma move_sends_motion_then_sync_witness :
  connected all_handles = true
  /\ (MoveJ = MoveJ \/ MoveJ = MoveL)
  /\ serve steady_robot all_handles MoveJ (Ok sample_move) []
     = ([(MovJ (VInt 200) (VInt 100) (VInt 50) (VInt 0), Reply "0,{},MovJ();");
         (Sync, Reply "0,{},Sync();")],
        Ok (ok_response
              "Executing MovJ to (200, 100, 50, 0) and waiting for completion."
              "0,{},MovJ();")).
Proof.
  split; [reflexivity|]. split; [left; reflexivity|].
  exact (move_sends_motion_then_sync steady_robot all_handles MoveJ
           [("x", VInt 200); ("y", VInt 100); ("z", VInt 50); ("r", VInt 0)]
           (VInt 200) (VInt 100) (VInt 50) (VInt 0) (Ok sample_move) []
           eq_refl (or_introl eq_refl) eq_refl eq_refl eq_refl eq_refl eq_refl).
Defined.

Lemma position_parse_failure_returns_500_witness :
  connected all_handles = true
  /\ pose_robot "0,{},GetPose(1.0,abc,3.0,4.0)" [] GetPose
     = Reply "0,{},GetPose(1.0,abc,3.0,4.0)"
  /\ pose_fields "0,{},GetPose(1.0,abc,3.0,4.0)"
     = Some ["1.0"; "abc"; "3.0"; "4.0"]
  /\ ascii_text "abc" = true
  /\ PyFloat.parse "abc" = None
  /\ exists detail,
       (Str.contains "(" "0,{},GetPose(1.0,abc,3.0,4.0)" = false ->
        detail = "list index out of range")
       /\ serve (pose_robot "0,{},GetPose(1.0,abc,3.0,4.0)") all_handles
            Position (Ok VNone) []
          = (([] ++ [(GetPose, Reply "0,{},GetPose(1.0,abc,3.0,4.0)")])%list,
             Ok (mkResponse
                   (VDict [("status", VStr "error");
                           ("message",
                            VStr ("Failed to parse position: " ++ detail))])
                   500)).
Proof.
  split; [reflexivity|]. split; [reflexivity|]. split; [reflexivity|].
  split; [reflexivity|]. split; [reflexivity|].
  apply (position_parse_failure_returns_500
           (pose_robot "0,{},GetPose(1.0,abc,3.0,4.0)") all_handles
           (Ok VNone) [] "0,{},GetPose(1.0,abc,3.0,4.0)");
    [reflexivity | reflexivity |].
  right. exists ["1.0"; "abc"; "3.0"; "4.0"].
  split; [reflexivity|]. left.
  apply Exists_cons_tl, Exists_cons_hd. split; reflexivity.
Defined.

Lemma validation_error_makes_no_remote_call_witness :
  serve steady_robot all_handles Speed (Ok (VDict [("ratio", VInt 500)])) []
  = ([], Ok (bad_request "Speed ratio must be between 1 and 100."))
  /\ (status_code (bad_request "Speed ratio must be between 1 and 100.") = 503
      \/ status_code (bad_request "Speed ratio must be between 1 and 100.")
         = 400)
  /\ @nil (Call * Outcome) = [].
Proof.
  split; [reflexivity|]. split; [right; reflexivity|].
  apply (validation_error_makes_no_remote_call steady_robot all_handles Speed
           (Ok (VDict [("ratio", VInt 500)])) [] []
           (bad_request "Speed ratio must be between 1 and 100."));
    [reflexivity | right; reflexivity].
Defined.

Lemma speed_unorderable_ratio_raises_witness :
  connected all_handles = true
  /\ Py.dict_get [("ratio", VStr "fast")] "ratio" = Some (VStr "fast")
  /\ orderable (VStr "fast") = false
  /\ serve steady_robot all_handles Speed
       (Ok (VDict [("ratio", VStr "fast")])) []
     = ([],
        Raise (mkExn TypeError
                 "'<=' not supported between instances of 'int' and 'str'")).
Proof.
  split; [reflexivity|]. split; [reflexivity|]. split; [reflexivity|].
  apply (speed_unorderable_ratio_raises steady_robot all_handles
           [("ratio", VStr "fast")] (VStr "fast")
           (Ok (VDict [("ratio", VStr "fast")])) []);
    reflexivity.
Defined.

Lemma failed_start_clears_all_handles_witness :
  feed_down ROBOT_IP 29999 = true
  /\ feed_down ROBOT_IP 30003 = true
  /\ feed_down ROBOT_IP 29999 && feed_down ROBOT_IP 30003
     && feed_down ROBOT_IP 30004 = false
  /\ startup feed_down = mkHandles None None None
  /\ forall e json log,
       protected e = true ->
       serve steady_robot (startup feed_down) e json log
       = (log, Ok (mkResponse (error_body not_connected_message) 503)).
Proof.
  split; [reflexivity|]. split; [reflexivity|]. split; [reflexivity|].
  apply (failed_start_clears_all_handles steady_robot feed_down).
  reflexivity.
Defined.

Lemma command_success_witness :
  connected all_handles = true
  /\ command_call Stop = Some (ResetRobot, "Robot stopped and queue cleared.")
  /\ steady_robot [] ResetRobot = Reply "0,{},ResetRobot();"
  /\ serve steady_robot all_handles Stop (Ok VNone) []
     = (([] ++ [(ResetRobot, Reply "0,{},ResetRobot();")])%list,
        Ok (mkResponse
              (VDict [("status", VStr "success");
                      ("message", VStr "Robot stopped and queue cleared.");
                      ("robot_response", VStr "0,{},ResetRobot();")])
              200)).
Proof.
  split; [reflexivity|]. split; [reflexivity|]. split; [reflexivity|].
  apply (command_success steady_robot all_handles Stop ResetRobot
           "Robot stopped and queue cleared." "0,{},ResetRobot();"
           (Ok VNone) []);
    reflexivity.
Defined.

Lemma position_reads_first_four_fields_witness :
  connected all_handles = true
  /\ no_paren "0,{},GetPose" = true
  /\ Forall (fun f => plain f = true) long_pose
  /\ Forall2 (fun f v => PyFloat.parse f = Some v) long_pose
       [1.5; -2; 30; 0.25; 7]%float
  /\ serve (pose_robot ("0,{},GetPose" ++ "(" ++ String.concat "," long_pose
                        ++ ")"))
       all_handles Position (Ok VNone) []
     = (([] ++ [(GetPose,
                 Reply ("0,{},GetPose" ++ "(" ++ String.concat "," long_pose
                        ++ ")"))])%list,
        Ok (mkResponse
              (VDict [("status", VStr "success");
                      ("position",
                       VDict [("x", VFloat 1.5); ("y", VFloat (-2));
                              ("z", VFloat 30); ("r", VFloat 0.25)]);
                      ("robot_response",
                       VStr ("0,{},GetPose" ++ "("
                             ++ String.concat "," long_pose ++ ")"))])
              200)).
Proof.
  assert (Hp : Forall (fun f => plain f = true) long_pose)
    by (repeat constructor).
  assert (Hv : Forall2 (fun f v => PyFloat.parse f = Some v) long_pose
                 [1.5; -2; 30; 0.25; 7]%float)
    by (repeat constructor; vm_compute; reflexivity).
  split; [reflexivity|]. split; [reflexivity|]. split; [exact Hp|].
  split; [exact Hv|].
  apply (position_reads_first_four_fields
           (pose_robot ("0,{},GetPose" ++ "(" ++ String.concat "," long_pose
                        ++ ")"))
           all_handles "0,{},GetPose" long_pose 1.5 (-2) 30 0.25 [7]%float
           (Ok VNone) []);
    [reflexivity | reflexivity | reflexivity | exact Hp | exact Hv].
Defined.

Lemma position_succeeds_iff_witness :
  connected all_handles = true
  /\ ascii_text "0,{},GetPose(1.0,2.0,3.0,4.0)" = true
  /\ steady_robot [] GetPose = Reply "0,{},GetPose(1.0,2.0,3.0,4.0)"
  /\ exists resp,
       serve steady_robot all_handles Position (Ok VNone) []
       = (([] ++ [(GetPose, Reply "0,{},GetPose(1.0,2.0,3.0,4.0)")])%list,
          Ok resp)
       /\ (status_code resp = 200 \/ status_code resp = 500)
       /\ (status_code resp = 200
           <-> exists fs,
                 pose_fields "0,{},GetPose(1.0,2.0,3.0,4.0)" = Some fs
                 /\ Forall (fun c => PyFloat.parse c <> None) fs
                 /\ (4 <= List.length fs)%nat).
Proof.
  split; [reflexivity|]. split; [reflexivity|]. split; [reflexivity|].
  apply (position_succeeds_iff steady_robot all_handles
           "0,{},GetPose(1.0,2.0,3.0,4.0)" (Ok VNone) []);
    reflexivity.
Defined.

Lemma speed_missing_ratio_returns_400_witness :
  connected all_handles = true
  /\ Py.dict_get [("speed", VInt 80)] "ratio" = None
  /\ serve steady_robot all_handles Speed (Ok (VDict [("speed", VInt 80)])) []
     = ([],
        Ok (mkResponse
              (VDict [("status", VStr "error");
                      ("message", VStr "Invalid payload. Required key: ratio")])
              400)).
Proof.
  split; [reflexivity|]. split; [reflexivity|].
  apply (speed_missing_ratio_returns_400 steady_robot all_handles
           (Ok (VDict [("speed", VInt 80)])) []);
    [reflexivity|].
  right. exists [("speed", VInt 80)]. split; reflexivity.
Defined.

Lemma speed_float_ratio_witness :
  connected all_handles = true
  /\ Py.dict_get [("ratio", VFloat 50.5)] "ratio" = Some (VFloat 50.5)
  /\ float_inside 50.5
  /\ serve steady_robot all_handles Speed
       (Ok (VDict [("ratio", VFloat 50.5)])) []
     = (([] ++ [(SpeedFactor (VFloat 50.5),
                 steady_robot [] (SpeedFactor (VFloat 50.5)))])%list,
        Ok (match steady_robot [] (SpeedFactor (VFloat 50.5)) with
            | Reply s =>
                ok_response
                  ("Global speed set to " ++ PyRepr.float_repr 50.5 ++ "%.") s
            | Fault msg => server_error msg
            end))
  /\ Py.dict_get [("ratio", VFloat 100.5)] "ratio" = Some (VFloat 100.5)
  /\ float_outside 100.5
  /\ serve steady_robot all_handles Speed
       (Ok (VDict [("ratio", VFloat 100.5)])) []
     = ([],
        Ok (mkResponse
              (VDict [("status", VStr "error");
                      ("message",
                       VStr "Speed ratio must be between 1 and 100.")])
              400)).
Proof.
  assert (Hin : float_inside 50.5)
    by (split; [right | left]; vm_compute; reflexivity).
  assert (Hout : float_outside 100.5)
    by (right; left; vm_compute; reflexivity).
  split; [reflexivity|]. split; [reflexivity|]. split; [exact Hin|].
  split.
  - apply (speed_float_ratio steady_robot all_handles
             [("ratio", VFloat 50.5)] 50.5
             (Ok (VDict [("ratio", VFloat 50.5)])) []);
      [reflexivity | reflexivity | reflexivity | exact Hin].
  - split; [reflexivity|]. split; [exact Hout|].
    apply (speed_float_ratio steady_robot all_handles
             [("ratio", VFloat 100.5)] 100.5
             (Ok (VDict [("ratio", VFloat 100.5)])) []);
      [reflexivity | reflexivity | reflexivity | exact Hout].
Defined.

Lemma exception_escapes_before_any_call_witness :
  protected Speed = true
  /\ serve steady_robot all_handles Speed
       (Ok (VDict [("ratio", VStr "fast")])) []
     = ([], Raise (Py.unorderable "int" "str"))
  /\ @nil (Call * Outcome) = []
  /\ reads_body Speed = true
  /\ (Ok (VDict [("ratio", VStr "fast")]) = Raise (Py.unorderable "int" "str")
      \/ exn_class (Py.unorderable "int" "str") = TypeError).
Proof.
  split; [reflexivity|]. split; [reflexivity|].
  apply (exception_escapes_before_any_call steady_robot all_handles Speed
           (Ok (VDict [("ratio", VStr "fast")])) [] []
           (Py.unorderable "int" "str"));
    reflexivity.
Defined.

Lemma bodyless_endpoints_always_respond_witness :
  reads_body Position = false
  /\ exists log' r,
       serve (broken_robot "link lost") all_handles Position (Ok VNone) []
       = (log', Ok r)
       /\ (status_code r = 200 \/ status_code r = 500 \/ status_code r = 503).
Proof.
  split; [reflexivity|].
  apply (bodyless_endpoints_always_respond (broken_robot "link lost")
           all_handles Position (Ok VNone) []);
    reflexivity.
Defined.

Lemma status_matches_envelope_witness :
  protected MoveJ = true
  /\ serve (stalled_robot "sync timeout") all_handles MoveJ (Ok sample_move) []
     = ([(MovJ (VInt 200) (VInt 100) (VInt 50) (VInt 0),
          Reply "0,{},MovJ();");
         (Sync, Fault "sync timeout")],
        Ok (server_error "sync timeout"))
  /\ ((status_code (server_error "sync timeout") = 200
       /\ body_status (server_error "sync timeout") = Ok (VStr "success"))
      \/ ((status_code (server_error "sync timeout") = 400
           \/ status_code (server_error "sync timeout") = 500
           \/ status_code (server_error "sync timeout") = 503)
          /\ body_status (server_error "sync timeout") = Ok (VStr "error"))).
Proof.
  split; [reflexivity|]. split; [vm_compute; reflexivity|].
  apply (status_matches_envelope (stalled_robot "sync timeout") all_handles
           MoveJ (Ok sample_move) []
           [(MovJ (VInt 200) (VInt 100) (VInt 50) (VInt 0),
             Reply "0,{},MovJ();");
            (Sync, Fault "sync timeout")]
           (server_error "sync timeout"));
    [reflexivity | vm_compute; reflexivity].
Defined.

Lemma status_tells_robot_contact_witness :
  protected Enable = true
  /\ serve (broken_robot "link lost") all_handles Enable (Ok VNone) []
     = ([(EnableRobot, Fault "link lost")], Ok (server_error "link lost"))
  /\ ([(EnableRobot, Fault "link lost")] = []
      <-> status_code (server_error "link lost") = 400
          \/ status_code (server_error "link lost") = 503).
Proof.
  split; [reflexivity|]. split; [reflexivity|].
  apply (status_tells_robot_contact (broken_robot "link lost") all_handles
           Enable (Ok VNone) [] [(EnableRobot, Fault "link lost")]
           (server_error "link lost"));
    reflexivity.
Defined.

Lemma move_list_body_raises_witness :
  connected all_handles = true
  /\ (MoveL = MoveJ \/ MoveL = MoveL)
  /\ serve steady_robot all_handles MoveL
       (Ok (VList [VStr "x"; VStr "y"; VStr "z"; VStr "r"])) []
     = ([],
        Raise (mkExn TypeError
                 "list indices must be integers or slices, not str")).
Proof.
  split; [reflexivity|]. split; [right; reflexivity|].
  apply (move_list_body_raises steady_robot all_handles MoveL
           [VStr "x"; VStr "y"; VStr "z"; VStr "r"]
           (Ok (VList [VStr "x"; VStr "y"; VStr "z"; VStr "r"])) []);
    [reflexivity | right; reflexivity | reflexivity |].
  intros k Hk. cbn in Hk.
  destruct Hk as [<-|[<-|[<-|[<-|[]]]]]; cbn; auto.
Defined.
